(** * scrapy-mongodb: the MongoDB item pipeline ([scrapy_mongodb.py])

    A shallow embedding of [MongoDBPipeline]: its configuration
    ([configure]), start-up ([open_spider]), the per-item entry point
    ([process_item]), the insertion routine ([insert_item]) and shutdown
    ([close_spider]), followed by the properties of the specification that
    were checked against it.

    Python objects are modelled as follows.
    - The dictionaries held by the pipeline ([current_item], [item_buffer],
      [duplicate_key_count], [collection], [stop_on_duplicate],
      [buffer_settings], [config['collection']]) are finite maps keyed by the
      item type name; a subscript on a missing key raises [KeyError].
    - An item is the dictionary of its serialized fields
      ([dict(self._get_serialized_fields(item))]), an association list.
    - The driver (pymongo), the clock and the crawler engine are outside the
      module: every call to them is recorded as an [event], and what a driver
      call answers (success or an exception) is an input of the model.
    - [log.msg] calls have no effect on control flow or state and are left
      out. *)

From Stdlib Require Import ZArith Lia Ascii String DecimalString.
From stdpp Require Import gmap strings list.

Local Open Scope string_scope.
Local Open Scope Z_scope.
Local Open Scope list_scope.
Set Warnings "-register-all".

(** ** Python values *)

(** Values found in Scrapy settings and in the connection options. *)
Inductive sval : Type :=
| SNone
| SBool (b : bool)
| SInt (z : Z)
| SStr (s : string).

(** Values of item fields.  [FDict] is a nested dictionary (the pipeline
    writes one under the key ['scrapy-mongodb']); [FDatetime] is a
    [datetime] given by its clock reading. *)
Inductive fval : Type :=
| FNone
| FBool (b : bool)
| FInt (z : Z)
| FStr (s : string)
| FDatetime (t : Z)
| FDict (d : list (string * fval)).

(** A serialized item: field name to value. *)
Definition Item : Type := list (string * fval).

(** What [insert_item] receives and returns: one item or a list of items. *)
Inductive payload : Type :=
| One (d : Item)
| Batch (l : list Item).

(** [isinstance(item, list)] *)
Definition isinstance_list (p : payload) : bool :=
  match p with One _ => false | Batch _ => true end.

(** Exceptions that the module raises or lets through. *)
Inductive exn : Type :=
| KeyError (key : string)
| NameError (name : string)
| TypeError (msg : string)
| ValueError (msg : string)
| SyntaxError (msg : string)
| DuplicateKeyError
| ConnectionFailure
| OperationFailure.

Inductive res (A : Type) : Type :=
| Ok (a : A)
| Raise (e : exn).
Arguments Ok {A} a.
Arguments Raise {A} e.

(** ** Configuration *)

(** [collection['unique_key']]: [None], a field name, or a pymongo key list
    of (field, direction) pairs, the form that both [ensure_index] and
    [dict(...)] accept. *)
Inductive unique_key_spec : Type :=
| UKNone
| UKField (f : string)
| UKList (l : list (string * Z)).

(** One entry of [config['collection']]. *)
Module Coll.
Record t : Type := mk {
  name : string;
  unique_key : unique_key_spec;
  buffer : option Z;            (* None or an int *)
  append_timestamp : bool;
  stop_on_duplicate : option Z  (* None or an int *)
}.
End Coll.

(** The class attribute [config]. An entry of [collection] that is [None]
    here stands for a falsy entry ([None]) of the Python dictionary. *)
Module Cfg.
Record t : Type := mk {
  uri : sval;
  fsync : sval;
  write_concern : sval;
  database : sval;
  replica_set : sval;
  collection : gmap string (option Coll.t)
}.
End Cfg.

Definition default_collection : Coll.t :=
  Coll.mk "items" UKNone None false (Some 0).

Definition default_config : Cfg.t :=
  Cfg.mk (SStr "mongodb://localhost:27017") (SBool false) (SInt 0)
         (SStr "scrapy-mongodb") SNone
         {[ "default" := Some default_collection ]}.

(** The Scrapy settings the module reads; [settings[name]] is [None] for a
    setting that is absent. *)
Record Settings : Type := mkSettings {
  MONGODB_HOST : sval;
  MONGODB_PORT : sval;
  MONGODB_REPLICA_SET : sval;
  MONGODB_REPLICA_SET_HOSTS : sval;
  MONGODB_URI : sval;
  MONGODB_FSYNC : sval;
  MONGODB_REPLICA_SET_W : sval;
  MONGODB_DATABASE : sval;
  MONGODB_COLLECTION : option (gmap string (option Coll.t))
}.

Definition no_settings : Settings :=
  mkSettings SNone SNone SNone SNone SNone SNone SNone SNone None.

(** ** Calls that leave the module *)

Inductive ReadPreference : Type := PRIMARY | PRIMARY_PREFERRED.

Inductive event : Type :=
| EvMongoClient (uri fsync : sval) (read_preference : ReadPreference)
| EvMongoReplicaSetClient (uri replicaSet w fsync : sval)
                          (read_preference : ReadPreference)
| EvEnsureIndex (coll : string) (key : unique_key_spec)
| EvInsert (coll : string) (docs : payload)
| EvUpdate (coll : string) (key : Item) (doc : payload)
| EvCloseSpider (reason : string).

(** ** Pipeline state *)

Record Pipeline : Type := mkPipeline {
  config : Cfg.t;
  current_item : gmap string Z;
  item_buffer : gmap string (list Item);
  duplicate_key_count : gmap string Z;
  collection : gmap string string;
  stop_on_duplicate : gmap string Z;
  buffer_settings : gmap string Z
}.

(** The class as Python creates it: default [config], empty dictionaries. *)
Definition new_pipeline : Pipeline :=
  mkPipeline default_config ∅ ∅ ∅ ∅ ∅ ∅.

Definition set_config (c : Cfg.t) (p : Pipeline) : Pipeline :=
  mkPipeline c (current_item p) (item_buffer p) (duplicate_key_count p)
             (collection p) (stop_on_duplicate p) (buffer_settings p).
Definition set_current_item (m : gmap string Z) (p : Pipeline) : Pipeline :=
  mkPipeline (config p) m (item_buffer p) (duplicate_key_count p)
             (collection p) (stop_on_duplicate p) (buffer_settings p).
Definition set_item_buffer (m : gmap string (list Item)) (p : Pipeline) : Pipeline :=
  mkPipeline (config p) (current_item p) m (duplicate_key_count p)
             (collection p) (stop_on_duplicate p) (buffer_settings p).
Definition set_duplicate_key_count (m : gmap string Z) (p : Pipeline) : Pipeline :=
  mkPipeline (config p) (current_item p) (item_buffer p) m
             (collection p) (stop_on_duplicate p) (buffer_settings p).
Definition set_collection (m : gmap string string) (p : Pipeline) : Pipeline :=
  mkPipeline (config p) (current_item p) (item_buffer p) (duplicate_key_count p)
             m (stop_on_duplicate p) (buffer_settings p).
Definition set_stop_on_duplicate (m : gmap string Z) (p : Pipeline) : Pipeline :=
  mkPipeline (config p) (current_item p) (item_buffer p) (duplicate_key_count p)
             (collection p) m (buffer_settings p).
Definition set_buffer_settings (m : gmap string Z) (p : Pipeline) : Pipeline :=
  mkPipeline (config p) (current_item p) (item_buffer p) (duplicate_key_count p)
             (collection p) (stop_on_duplicate p) m.

(** ** The monad of pipeline methods

    A method runs from a pipeline state and yields a result or an exception,
    the state it leaves (mutations made before an exception stay), and the
    outside calls it made, oldest first. *)
Definition Py (A : Type) : Type := Pipeline -> res A * Pipeline * list event.

Definition ret {A} (a : A) : Py A := fun s => (Ok a, s, []).
Definition raise {A} (e : exn) : Py A := fun s => (Raise e, s, []).
Definition bind {A B} (m : Py A) (k : A -> Py B) : Py B :=
  fun s =>
    match m s with
    | (Ok a, s1, t1) =>
        match k a s1 with
        | (r, s2, t2) => (r, s2, t1 ++ t2)
        end
    | (Raise e, s1, t1) => (Raise e, s1, t1)
    end.
Definition get : Py Pipeline := fun s => (Ok s, s, []).
Definition modify (f : Pipeline -> Pipeline) : Py unit := fun s => (Ok tt, f s, []).
Definition emit (ev : event) : Py unit := fun s => (Ok tt, s, [ev]).

(** [try: m except E: h] for the exceptions selected by [catches]. *)
Definition try_except {A} (m : Py A) (catches : exn -> bool) (h : Py A) : Py A :=
  fun s =>
    match m s with
    | (Ok a, s1, t1) => (Ok a, s1, t1)
    | (Raise e, s1, t1) =>
        if catches e then
          match h s1 with
          | (r, s2, t2) => (r, s2, t1 ++ t2)
          end
        else (Raise e, s1, t1)
    end.

Declare Scope py_scope.
Delimit Scope py_scope with py.
Notation "'let*' x ':=' m 'in' k" := (bind m (fun x => k))
  (at level 10, x pattern, m at level 100, k at level 200) : py_scope.
Notation "m ';;' k" := (bind m (fun _ => k))
  (at level 100, k at level 200, right associativity) : py_scope.
Local Open Scope py_scope.

(** [d[k]] on a dictionary of the pipeline. *)
Definition getitem {V} (d : gmap string V) (k : string) : Py V :=
  match d !! k with
  | Some v => ret v
  | None => raise (KeyError k)
  end.

(** A name that is bound nowhere in the module. *)
Definition unbound_name {A} (name : string) : Py A := raise (NameError name).

(** [for x in l: body x] *)
Fixpoint for_each {A} (l : list A) (body : A -> Py unit) : Py unit :=
  match l with
  | [] => ret tt
  | x :: l' => body x ;; for_each l' body
  end.

(** A driver call: it is recorded, then it answers. [None] is success. *)
Definition driver_call (ev : event) (answer : option exn) : Py unit :=
  emit ev ;;
  match answer with
  | None => ret tt
  | Some e => raise e
  end.

(** ** Python built-ins used by the module *)

(** [str(v)] *)
Definition py_str (v : sval) : string :=
  match v with
  | SNone => "None"
  | SBool true => "True"
  | SBool false => "False"
  | SInt z => NilZero.string_of_int (Z.to_int z)
  | SStr s => s
  end.

(** Presentation types of the format mini-language that a value accepts:
    the integer and float codes for an [int] (and a [bool], which formats as
    an [int]), ["s"] for a [str] (and for [None], which formats through
    [str]). *)
Definition presentation_types (v : sval) : list ascii :=
  match v with
  | SInt _ | SBool _ =>
      ["b"; "c"; "d"; "e"; "E"; "f"; "F"; "g"; "G"; "n"; "o"; "x"; "X"; "%"]%char
  | SStr _ | SNone => ["s"]%char
  end.

Definition is_letter (c : ascii) : bool :=
  let n := N_of_ascii c in
  ((97 <=? n) && (n <=? 122) || (65 <=? n) && (n <=? 90))%N.

Definition dict_get {V} (k : string) (d : list (string * V)) : option V :=
  snd <$> List.find (fun kv => String.eqb k (fst kv)) d.

(** [d[k] = v] on a dictionary that keeps its keys in insertion order. *)
Fixpoint dict_set {V} (k : string) (v : V) (d : list (string * V)) : list (string * V) :=
  match d with
  | [] => [(k, v)]
  | (k', v') :: d' =>
      if String.eqb k k' then (k, v) :: d' else (k', v') :: dict_set k v d'
  end.

(** [dict(pairs).keys()]: each key once. *)
Fixpoint dict_keys {V} (pairs : list (string * V)) : list string :=
  match pairs with
  | [] => []
  | (k, _) :: l =>
      if existsb (String.eqb k) (dict_keys l) then dict_keys l
      else k :: dict_keys l
  end.

(** [not_set(string)]: [None] or the empty string. *)
Definition not_set (v : sval) : bool :=
  match v with
  | SNone => true
  | SStr s => String.eqb s ""
  | _ => false
  end.

(** [item[k]] inside [insert_item], where [item] is a dictionary or a
    list; a list does not take a string index. *)
Definition subscript (p : payload) (k : string) : Py fval :=
  match p with
  | One d =>
      match dict_get k d with
      | Some v => ret v
      | None => raise (KeyError k)
      end
  | Batch _ => raise (TypeError "list indices must be integers, not str")
  end.

(** [item['scrapy-mongodb'] = {'ts': datetime.datetime.utcnow()}] *)
Definition stamp (now : Z) (item : Item) : Item :=
  dict_set "scrapy-mongodb" (FDict [("ts", FDatetime now)]) item.

Definition truthy_int (v : option Z) : bool :=
  match v with
  | Some n => negb (n =? 0)
  | None => false
  end.

Definition truthy_key (k : unique_key_spec) : bool :=
  match k with
  | UKNone => false
  | UKField f => negb (String.eqb f "")
  | UKList l => match l with [] => false | _ => true end
  end.

Definition is_none_key (k : unique_key_spec) : bool :=
  match k with UKNone => true | _ => false end.

(** [entry[...]] on an entry of [config['collection']]: [None] has no
    subscript. *)
Definition entry_fields (entry : option Coll.t) : Py Coll.t :=
  match entry with
  | Some c => ret c
  | None => raise (TypeError "'NoneType' object has no attribute '__getitem__'")
  end.

(** Updates [d[k] = v] of the pipeline's dictionaries. *)
Definition store_current_item (k : string) (v : Z) : Py unit :=
  modify (fun p => set_current_item (<[k := v]> (current_item p)) p).
Definition store_item_buffer (k : string) (v : list Item) : Py unit :=
  modify (fun p => set_item_buffer (<[k := v]> (item_buffer p)) p).
Definition store_duplicate_key_count (k : string) (v : Z) : Py unit :=
  modify (fun p => set_duplicate_key_count (<[k := v]> (duplicate_key_count p)) p).
Definition store_collection (k : string) (v : string) : Py unit :=
  modify (fun p => set_collection (<[k := v]> (collection p)) p).
Definition store_stop_on_duplicate (k : string) (v : Z) : Py unit :=
  modify (fun p => set_stop_on_duplicate (<[k := v]> (stop_on_duplicate p)) p).
Definition store_buffer_settings (k : string) (v : Z) : Py unit :=
  modify (fun p => set_buffer_settings (<[k := v]> (buffer_settings p)) p).

Definition config_uri (v : sval) (c : Cfg.t) : Cfg.t :=
  Cfg.mk v (Cfg.fsync c) (Cfg.write_concern c) (Cfg.database c)
         (Cfg.replica_set c) (Cfg.collection c).
Definition config_fsync (v : sval) (c : Cfg.t) : Cfg.t :=
  Cfg.mk (Cfg.uri c) v (Cfg.write_concern c) (Cfg.database c)
         (Cfg.replica_set c) (Cfg.collection c).
Definition config_write_concern (v : sval) (c : Cfg.t) : Cfg.t :=
  Cfg.mk (Cfg.uri c) (Cfg.fsync c) v (Cfg.database c)
         (Cfg.replica_set c) (Cfg.collection c).
Definition config_database (v : sval) (c : Cfg.t) : Cfg.t :=
  Cfg.mk (Cfg.uri c) (Cfg.fsync c) (Cfg.write_concern c) v
         (Cfg.replica_set c) (Cfg.collection c).
Definition config_replica_set (v : sval) (c : Cfg.t) : Cfg.t :=
  Cfg.mk (Cfg.uri c) (Cfg.fsync c) (Cfg.write_concern c) (Cfg.database c)
         v (Cfg.collection c).
Definition config_collection (v : gmap string (option Coll.t)) (c : Cfg.t) : Cfg.t :=
  Cfg.mk (Cfg.uri c) (Cfg.fsync c) (Cfg.write_concern c) (Cfg.database c)
         (Cfg.replica_set c) v.

(** [self.config[key] = v] *)
Definition store_config (f : Cfg.t -> Cfg.t) : Py unit :=
  modify (fun p => set_config (f (config p)) p).

(** [if not not_set(self.settings[setting]): self.config[key] = ...] *)
Definition regular_option (v : sval) (key : sval -> Cfg.t -> Cfg.t) : Py unit :=
  if negb (not_set v) then store_config (key v) else ret tt.

Section Methods.

(** What [format(v, spec)] gives for a spec that the value accepts and
    that is not empty (padding, radix, float notation).  The module has no
    such spec, so the rendering is left open. *)
Variable format_accepted : sval -> string -> res string.

(** [format(v, spec)], one replacement field of [str.format].  A spec that
    is a single letter names a presentation type; a letter the value does
    not know makes [format] raise [ValueError] ("Unknown format code"). *)
Definition format_field (v : sval) (spec : string) : Py string :=
  match spec with
  | EmptyString => ret (py_str v)
  | String c EmptyString =>
      if is_letter c && negb (existsb (Ascii.eqb c) (presentation_types v))
      then raise (ValueError "Unknown format code")
      else match format_accepted v spec with
           | Ok s => ret s
           | Raise e => raise e
           end
  | _ => match format_accepted v spec with
         | Ok s => ret s
         | Raise e => raise e
         end
  end.

(** [configure]: the deprecated settings first, then the regular options
    in the order of the [options] list. *)
Definition configure (settings : Settings) : Py unit :=
  (if negb (not_set (MONGODB_HOST settings)) then
     let mongodb_host := MONGODB_HOST settings in
     if negb (not_set (MONGODB_PORT settings)) then
       (* 'mongodb://{0}:{1:i}'.format(mongodb_host, MONGODB_PORT) *)
       let* h := format_field mongodb_host "" in
       let* p := format_field (MONGODB_PORT settings) "i" in
       store_config (config_uri (SStr ("mongodb://" +:+ h +:+ ":" +:+ p)))
     else
       (* 'mongodb://{0}:27017'.format(mongodb_host) *)
       let* h := format_field mongodb_host "" in
       store_config (config_uri (SStr ("mongodb://" +:+ h +:+ ":27017")))
   else ret tt) ;;
  (if negb (not_set (MONGODB_REPLICA_SET settings)) then
     if negb (not_set (MONGODB_REPLICA_SET_HOSTS settings)) then
       let* h := format_field (MONGODB_REPLICA_SET_HOSTS settings) "" in
       store_config (config_uri (SStr ("mongodb://" +:+ h)))
     else ret tt
   else ret tt) ;;
  regular_option (MONGODB_URI settings) config_uri ;;
  regular_option (MONGODB_FSYNC settings) config_fsync ;;
  regular_option (MONGODB_REPLICA_SET_W settings) config_write_concern ;;
  regular_option (MONGODB_DATABASE settings) config_database ;;
  match MONGODB_COLLECTION settings with
  | Some c => store_config (config_collection c)
  | None => ret tt
  end ;;
  regular_option (MONGODB_REPLICA_SET settings) config_replica_set.

(** What the driver answers during start-up: to the connection and to
    [ensure_index] on the collection of each item type. *)
Record Driver : Type := mkDriver {
  connect_answer : option exn;
  ensure_index_answer : string -> option exn
}.

(** The body of the loop of [open_spider] over [config['collection']]. *)
Definition open_spider_entry (drv : Driver) (itype : string)
           (collection : option Coll.t) : Py unit :=
  let* c := entry_fields collection in
  store_collection itype (Coll.name c) ;;
  (if truthy_int (Coll.buffer c)
   then store_buffer_settings itype (default 0 (Coll.buffer c))
   else store_buffer_settings itype 0) ;;
  store_item_buffer itype [] ;;
  store_current_item itype 0 ;;
  (if truthy_key (Coll.unique_key c)
   then driver_call (EvEnsureIndex (Coll.name c) (Coll.unique_key c))
                    (ensure_index_answer drv itype)
   else ret tt) ;;
  if truthy_int (Coll.stop_on_duplicate c) then
    let tmpValue := default 0 (Coll.stop_on_duplicate c) in
    if tmpValue <? 0 then
      raise (SyntaxError
        "Negative values are not allowed for MONGODB_STOP_ON_DUPLICATE option.")
    else store_stop_on_duplicate itype tmpValue
  else store_stop_on_duplicate itype 0.

(** The connection that [open_spider] opens for a configuration. *)
Definition connection_event (cfg : Cfg.t) : event :=
  match Cfg.replica_set cfg with
  | SNone =>
      EvMongoClient (Cfg.uri cfg) (Cfg.fsync cfg) PRIMARY
  | rs =>
      EvMongoReplicaSetClient (Cfg.uri cfg) rs (Cfg.write_concern cfg)
                              (Cfg.fsync cfg) PRIMARY_PREFERRED
  end.

Definition open_spider (drv : Driver) (settings : Settings) : Py unit :=
  configure settings ;;
  let* p := get in
  driver_call (connection_event (config p)) (connect_answer drv) ;;
  modify (set_collection ∅) ;;
  modify (set_stop_on_duplicate ∅) ;;
  modify (set_buffer_settings ∅) ;;
  for_each (map_to_list (Cfg.collection (config p)))
           (fun kv => open_spider_entry drv (fst kv) (snd kv)).

End Methods.

Definition catches_DuplicateKeyError (e : exn) : bool :=
  match e with DuplicateKeyError => true | _ => false end.

(** The handler [except errors.DuplicateKeyError] of [insert_item]. *)
Definition on_duplicate_key (itype : string) : Py unit :=
  let* p := get in
  let* limit := getitem (stop_on_duplicate p) itype in
  if 0 <? limit then
    let* n := getitem (duplicate_key_count p) itype in
    store_duplicate_key_count itype (n + 1) ;;
    let* p := get in
    let* n := getitem (duplicate_key_count p) itype in
    let* limit := getitem (stop_on_duplicate p) itype in
    if limit <=? n
    then emit (EvCloseSpider "Number of duplicate key insertion exceeded")
    else ret tt
  else ret tt.

(** [for k in keys: key[k] = item[k]] *)
Fixpoint key_filter (item : payload) (keys : list string) (key : Item) : Py Item :=
  match keys with
  | [] => ret key
  | k :: keys' =>
      let* v := subscript item k in
      key_filter item keys' (dict_set k v key)
  end.

(** [insert_item(item, spider, itype)].  [now] is the clock reading and
    [answer] what the driver answers to the one call made here; [entry] is
    the local variable [collection] of the source, the configuration entry
    of the type. *)
Definition insert_item (now : Z) (answer : option exn) (item : payload)
           (itype : string) : Py payload :=
  let* p := get in
  let* entry := getitem (Cfg.collection (config p)) itype in
  let* item :=
    match item with
    | One d =>
        (* item = dict(item) *)
        let* collecgtion := unbound_name "collecgtion" in
        let* c := entry_fields collecgtion in
        if Coll.append_timestamp c then ret (One (stamp now d)) else ret (One d)
    | Batch _ => ret item
    end in
  let* c := entry_fields entry in
  match Coll.unique_key c with
  | UKNone =>
      try_except
        (let* p := get in
         let* handle := getitem (collection p) itype in
         driver_call (EvInsert handle item) answer)
        catches_DuplicateKeyError
        (on_duplicate_key itype)
  | UKList l =>
      let* key := key_filter item (dict_keys l) [] in
      let* p := get in
      let* handle := getitem (collection p) itype in
      driver_call (EvUpdate handle key item) answer
  | UKField f =>
      let* key := key_filter item [f] [] in
      let* p := get in
      let* handle := getitem (collection p) itype in
      driver_call (EvUpdate handle key item) answer
  end ;;
  ret item.

(** [process_item(item, spider)]: [type_name] is [type(item).__name__] and
    [fields] the serialized fields of the item. *)
Definition process_item (now : Z) (answer : option exn) (type_name : string)
           (fields : Item) : Py payload :=
  let itype := type_name in
  let item := fields in
  let* p := get in
  let* entry := getitem (Cfg.collection (config p)) itype in
  let itype := match entry with None => "default" | Some _ => itype end in
  let* collection := getitem (Cfg.collection (config p)) itype in
  let* threshold := getitem (buffer_settings p) itype in
  if negb (threshold =? 0) then
    let* n := getitem (current_item p) itype in
    store_current_item itype (n + 1) ;;
    let* c := entry_fields collection in
    let item := if Coll.append_timestamp c then stamp now item else item in
    let* p := get in
    let* pending := getitem (item_buffer p) itype in
    store_item_buffer itype (pending ++ [item]) ;;
    let* p := get in
    let* n := getitem (current_item p) itype in
    if match Coll.buffer c with Some b => n =? b | None => false end then
      store_current_item itype 0 ;;
      let* p := get in
      let* pending := getitem (item_buffer p) itype in
      insert_item now answer (Batch pending) itype
    else ret (One item)
  else insert_item now answer (One item) itype.

(** What a [for] statement is given to iterate over. *)
Inductive iterand (A : Type) : Type :=
| Sequence (l : list A)
| BoundMethod (name : string).
Arguments Sequence {A} l.
Arguments BoundMethod {A} name.

(** [iter(o)]: a method object that was not called is not iterable. *)
Definition py_iter {A} (o : iterand A) : Py (list A) :=
  match o with
  | Sequence l => ret l
  | BoundMethod _ =>
      raise (TypeError "'builtin_function_or_method' object is not iterable")
  end.

(** [close_spider(spider)].  The loop iterates over [self.item_buffer.values],
    the method itself. [answer] gives the driver's answer per item type. *)
Definition close_spider (now : Z) (answer : string -> option exn) : Py unit :=
  let* pairs := py_iter (BoundMethod "values") in
  for_each pairs
    (fun kv : string * list Item =>
       let itype := fst kv in
       let item_buffer := snd kv in
       match item_buffer with
       | [] => ret tt
       | _ => insert_item now (answer itype) (Batch item_buffer) itype ;; ret tt
       end).

(** ** Runs of the pipeline *)

(** One call of [process_item] by the producer: the clock reading, what the
    driver answers if it is called, and the item (type name and fields). *)
Record submission : Type := mkSubmission {
  at_time : Z;
  driver_answer : option exn;
  type_name : string;
  fields : Item
}.

(** The producer submits its items one after the other.  An exception of
    [process_item] goes back to the engine, and the next item follows on the
    state the failed call left.  The result lists, per call, what it
    returned and the outside calls it made. *)
Fixpoint submit_all (subs : list submission) (s : Pipeline)
  : list (res payload * list event) * Pipeline :=
  match subs with
  | [] => ([], s)
  | x :: subs' =>
      match process_item (at_time x) (driver_answer x) (type_name x) (fields x) s with
      | (r, s1, tr) =>
          match submit_all subs' s1 with
          | (rs, s2) => ((r, tr) :: rs, s2)
          end
      end
  end.


Definition is_close_spider (ev : event) : bool :=
  match ev with EvCloseSpider _ => true | _ => false end.

(** Number of [close_spider] requests sent to the engine in a trace. *)
Definition close_spider_calls (tr : list event) : nat :=
  length (List.filter is_close_spider tr).

Definition is_store_write (ev : event) : bool :=
  match ev with EvInsert _ _ | EvUpdate _ _ _ => true | _ => false end.

(** Number of writes ([insert] or [update]) sent to the store in a trace. *)
Definition store_writes (tr : list event) : nat :=
  length (List.filter is_store_write tr).

(** Number of submissions of a given item type. *)
Definition submissions_of (itype : string) (subs : list submission) : Z :=
  Z.of_nat (length (List.filter (fun x => String.eqb (type_name x) itype) subs)).

(** ** States reached after start-up *)

(** What [open_spider] leaves for every configured item type: a proper
    entry, the buffer threshold copied from it, a count, a buffer, a
    collection handle and a duplicate-stop threshold. *)
Record initialised (s : Pipeline) (itype : string) (c : Coll.t) : Prop := {
  init_threshold :
    buffer_settings s !! itype =
      Some (if truthy_int (Coll.buffer c) then default 0 (Coll.buffer c) else 0);
  init_count : is_Some (current_item s !! itype);
  init_buffer : is_Some (item_buffer s !! itype);
  init_collection : collection s !! itype = Some (Coll.name c);
  init_stop :
    stop_on_duplicate s !! itype =
      Some (if truthy_int (Coll.stop_on_duplicate c)
            then default 0 (Coll.stop_on_duplicate c) else 0);
  init_stop_nonneg : 0 <= default 0 (Coll.stop_on_duplicate c)
}.

Definition started (s : Pipeline) : Prop :=
  forall itype entry,
    Cfg.collection (config s) !! itype = Some entry ->
    exists c, entry = Some c /\ initialised s itype c.

(** The state right after a successful [open_spider]: moreover every count
    is zero and every buffer empty. *)
Definition fresh (s : Pipeline) : Prop :=
  started s /\
  forall itype entry,
    Cfg.collection (config s) !! itype = Some entry ->
    current_item s !! itype = Some 0 /\ item_buffer s !! itype = Some [].

(** ** Definitions used in the statements and proofs *)

(** Two states that agree on everything but the duplicate counters. *)
Definition same_but_duplicates (s s' : Pipeline) : Prop :=
  s' = set_duplicate_key_count (duplicate_key_count s') s.

(** The state after one more item was put in the buffer of type [t]. *)
Definition enqueue (t : string) (n : Z) (pending : list Item) (s : Pipeline)
  : Pipeline :=
  set_item_buffer (<[t := pending]> (item_buffer s))
                  (set_current_item (<[t := n]> (current_item s)) s).

Definition reaches (threshold : option Z) (n : Z) : bool :=
  match threshold with Some b => n =? b | None => false end.

(** The counts after one call of [process_item] for the declared type [t],
    on a started pipeline: one more item for a buffered type, back to zero
    when the threshold is reached; no change otherwise. *)
Definition counted (t : string) (s : Pipeline) : gmap string Z :=
  match Cfg.collection (config s) !! t, current_item s !! t with
  | Some (Some c), Some n =>
      if truthy_int (Coll.buffer c)
      then <[t := if reaches (Coll.buffer c) (n + 1) then 0 else n + 1]>
             (current_item s)
      else current_item s
  | _, _ => current_item s
  end.

(** A step that calls nothing outside and writes nothing but [config]. *)
Definition config_only {A} (m : Py A) : Prop :=
  forall s, (m s).2 = [] /\ (m s).1.2 = set_config (config (m s).1.2) s.

(** The buffer threshold and the duplicate-stop threshold that
    [open_spider] keeps for an entry. *)
Definition kept (v : option Z) : Z :=
  if truthy_int v then default 0 v else 0.

(** The state once the loop body of [open_spider] has set up the
    collection, the threshold, the buffer and the count of a type. *)
Definition entered (itype : string) (c : Coll.t) (s : Pipeline) : Pipeline :=
  set_current_item (<[itype := 0]> (current_item s))
    (set_item_buffer (<[itype := []]> (item_buffer s))
       (set_buffer_settings (<[itype := kept (Coll.buffer c)]> (buffer_settings s))
          (set_collection (<[itype := Coll.name c]> (collection s)) s))).

Definition index_calls (c : Coll.t) : list event :=
  if truthy_key (Coll.unique_key c)
  then [EvEnsureIndex (Coll.name c) (Coll.unique_key c)] else [].

Definition negative_message : string :=
  "Negative values are not allowed for MONGODB_STOP_ON_DUPLICATE option.".

(** The dictionaries of two states agree at a type. *)
Definition same_at (k : string) (s s' : Pipeline) : Prop :=
  current_item s' !! k = current_item s !! k /\
  item_buffer s' !! k = item_buffer s !! k /\
  collection s' !! k = collection s !! k /\
  stop_on_duplicate s' !! k = stop_on_duplicate s !! k /\
  buffer_settings s' !! k = buffer_settings s !! k.

(** A type that [open_spider] has just set up. *)
Definition set_up (s : Pipeline) (k : string) (c : Coll.t) : Prop :=
  initialised s k c /\
  current_item s !! k = Some 0 /\ item_buffer s !! k = Some [].

Definition plain_format : sval -> string -> res string :=
  fun v _ => Ok (py_str v).

Definition good_driver : Driver := mkDriver None (fun _ => None).

(** A type ["Page"] buffered by two, next to the default entry. *)
Definition page_entry : Coll.t := Coll.mk "pages" UKNone (Some 2) false (Some 0).

Definition page_settings : Settings :=
  mkSettings SNone SNone SNone SNone SNone SNone SNone SNone
    (Some {[ "default" := Some default_collection; "Page" := Some page_entry ]}).

Definition page_pipeline : Pipeline :=
  (open_spider plain_format good_driver page_settings new_pipeline).1.2.

Definition record (n : Z) : Item := [("id", FInt n)].

Definition page (n : Z) : submission := mkSubmission 0 None "Page" (record n).

(** Types with a unique key: a single field, unbuffered and buffered by
    one, and a compound key. *)
Definition keyed_settings : Settings :=
  mkSettings SNone SNone SNone SNone SNone SNone SNone SNone
    (Some {[ "default" := Some default_collection;
             "Doc" := Some (Coll.mk "docs" (UKField "id") None false (Some 0));
             "Row" := Some (Coll.mk "rows" (UKField "id") (Some 1) false (Some 0));
             "Pair" := Some (Coll.mk "pairs" (UKList [("id", 1); ("lang", 1)])
                                     (Some 1) false (Some 0)) ]}).

Definition keyed_pipeline : Pipeline :=
  (open_spider plain_format good_driver keyed_settings new_pipeline).1.2.

(** Two types with pending records at shutdown. *)
Definition two_types_settings : Settings :=
  mkSettings SNone SNone SNone SNone SNone SNone SNone SNone
    (Some {[ "default" := Some default_collection;
             "A" := Some (Coll.mk "as" UKNone (Some 5) false (Some 0));
             "B" := Some (Coll.mk "bs" UKNone (Some 5) false (Some 0)) ]}).

Definition pending_pipeline : Pipeline :=
  (submit_all [mkSubmission 0 None "A" (record 1);
               mkSubmission 0 None "B" (record 2);
               mkSubmission 0 None "A" (record 3)]
     (open_spider plain_format good_driver two_types_settings new_pipeline).1.2).2.

Definition is_insert (ev : event) : bool :=
  match ev with EvInsert _ _ => true | _ => false end.

(** Number of [insert] calls sent to the store in a trace. *)
Definition store_inserts (tr : list event) : nat :=
  length (List.filter is_insert tr).

(** A type that asks for a stop at the first duplicate key. *)
Definition strict_entry : Coll.t := Coll.mk "pages" UKNone (Some 1) false (Some 1).

Definition strict_settings : Settings :=
  mkSettings SNone SNone SNone SNone SNone SNone SNone SNone
    (Some {[ "default" := Some default_collection; "Page" := Some strict_entry ]}).

Definition strict_pipeline : Pipeline :=
  (open_spider plain_format good_driver strict_settings new_pipeline).1.2.



Definition host_and_port : Settings :=
  mkSettings (SStr "db.example.org") (SInt 27018)
             SNone SNone SNone SNone SNone SNone None.

Definition host_only : Settings :=
  mkSettings (SStr "db.example.org") SNone
             SNone SNone SNone SNone SNone SNone None.

(** The settings with another value for MONGODB_REPLICA_SET_W. *)
Definition with_write_concern (w : sval) (st : Settings) : Settings :=
  mkSettings (MONGODB_HOST st) (MONGODB_PORT st) (MONGODB_REPLICA_SET st)
             (MONGODB_REPLICA_SET_HOSTS st) (MONGODB_URI st) (MONGODB_FSYNC st)
             w (MONGODB_DATABASE st) (MONGODB_COLLECTION st).

(** Two states that agree on everything but [config['write_concern']]. *)
Definition same_but_write_concern (s s' : Pipeline) : Prop :=
  exists w, s' = set_config (config_write_concern w (config s)) s.

(** Two steps that, from such states, end alike and in such states. *)
Definition agree {A} (m m' : Py A) : Prop :=
  forall s s',
    same_but_write_concern s s' ->
    (m s).1.1 = (m' s').1.1 /\ (m s).2 = (m' s').2 /\
    same_but_write_concern (m s).1.2 (m' s').1.2.

(** A replica set named ["rs0"] with write concern 2. *)
Definition replica_settings : Settings :=
  mkSettings SNone SNone (SStr "rs0") SNone SNone (SBool true) (SInt 2) SNone None.

(** ** Definitions for the further properties *)

(** What a regular option leaves in [config]: the setting when it is set,
    the value that was there otherwise. *)
Definition option_value (setting old : sval) : sval :=
  if not_set setting then old else setting.

(** The URI that a successful [configure] leaves: MONGODB_URI when set;
    otherwise the replica set hosts when the replica set and its hosts are
    set; otherwise the deprecated host on port 27017; otherwise the URI
    that was there. *)
Definition resolved_uri (st : Settings) (old : sval) : sval :=
  if negb (not_set (MONGODB_URI st)) then MONGODB_URI st
  else if negb (not_set (MONGODB_REPLICA_SET st)) &&
          negb (not_set (MONGODB_REPLICA_SET_HOSTS st))
  then SStr ("mongodb://" +:+ py_str (MONGODB_REPLICA_SET_HOSTS st))
  else if negb (not_set (MONGODB_HOST st))
  then SStr ("mongodb://" +:+ py_str (MONGODB_HOST st) +:+ ":27017")
  else old.

Definition resolved (st : Settings) (old : Cfg.t) : Cfg.t :=
  Cfg.mk (resolved_uri st (Cfg.uri old))
         (option_value (MONGODB_FSYNC st) (Cfg.fsync old))
         (option_value (MONGODB_REPLICA_SET_W st) (Cfg.write_concern old))
         (option_value (MONGODB_DATABASE st) (Cfg.database old))
         (option_value (MONGODB_REPLICA_SET st) (Cfg.replica_set old))
         (default (Cfg.collection old) (MONGODB_COLLECTION st)).

(** The settings with another value for MONGODB_PORT, and for
    MONGODB_REPLICA_SET_HOSTS. *)
Definition with_port (v : sval) (st : Settings) : Settings :=
  mkSettings (MONGODB_HOST st) v (MONGODB_REPLICA_SET st)
             (MONGODB_REPLICA_SET_HOSTS st) (MONGODB_URI st) (MONGODB_FSYNC st)
             (MONGODB_REPLICA_SET_W st) (MONGODB_DATABASE st)
             (MONGODB_COLLECTION st).

Definition with_replica_set_hosts (v : sval) (st : Settings) : Settings :=
  mkSettings (MONGODB_HOST st) (MONGODB_PORT st) (MONGODB_REPLICA_SET st)
             v (MONGODB_URI st) (MONGODB_FSYNC st)
             (MONGODB_REPLICA_SET_W st) (MONGODB_DATABASE st)
             (MONGODB_COLLECTION st).

(** Settings that name a URI next to the deprecated host. *)
Definition uri_and_host : Settings :=
  mkSettings (SStr "old.example.org") SNone SNone SNone
             (SStr "mongodb://new.example.org:27017") SNone SNone SNone None.

(** Settings that switch fsync off explicitly and name a database. *)
Definition fsync_off : Settings :=
  mkSettings SNone SNone SNone SNone SNone (SBool false) (SInt 0)
             (SStr "crawl") None.

(** A pipeline whose class configuration was changed by an earlier run. *)
Definition reconfigured_pipeline : Pipeline :=
  (configure plain_format replica_settings new_pipeline).1.2.

(** The [ensure_index] calls that start-up makes for a configuration
    table, in iteration order: one per entry with a unique key. *)
Definition index_events (table : list (string * option Coll.t)) : list event :=
  flat_map
    (fun kv =>
       match kv.2 with
       | Some c =>
           if truthy_key (Coll.unique_key c)
           then [EvEnsureIndex (Coll.name c) (Coll.unique_key c)] else []
       | None => []
       end)
    table.

(** [v or 0] for an option of the configuration. *)
Definition or_zero (v : option Z) : Z :=
  match v with Some n => n | None => 0 end.

(** A driver that cannot connect, and one that cannot build indexes. *)
Definition down_driver : Driver := mkDriver (Some ConnectionFailure) (fun _ => None).

Definition no_index_driver : Driver :=
  mkDriver None (fun _ => Some OperationFailure).



(** All outside calls of a run, in order. *)
Definition run_calls (results : list (res payload * list event)) : list event :=
  concat (List.map snd results).

(** A type without buffer and without unique key, as in the default
    configuration. *)
Definition plain_entry : Coll.t := Coll.mk "plain" UKNone None false (Some 0).

(** A buffered type that stamps its records. *)
Definition stamped_entry : Coll.t := Coll.mk "stamped" UKNone (Some 3) true (Some 0).

Definition mixed_settings : Settings :=
  mkSettings SNone SNone SNone SNone SNone SNone SNone SNone
    (Some {[ "default" := Some default_collection;
             "Plain" := Some plain_entry;
             "Page" := Some page_entry;
             "Stamped" := Some stamped_entry ]}).

Definition mixed_pipeline : Pipeline :=
  (open_spider plain_format good_driver mixed_settings new_pipeline).1.2.

Definition mixed_run : list submission :=
  [ mkSubmission 10 None "Stamped" (record 1);
    mkSubmission 11 None "Page" (record 2);
    mkSubmission 12 (Some DuplicateKeyError) "Page" (record 3);
    mkSubmission 13 None "Plain" (record 4);
    mkSubmission 14 None "Stamped" (record 5);
    mkSubmission 15 None "Nowhere" (record 6) ].



(** Two submissions of the strict type whose insert meets a duplicate
    key. *)
Definition strict_run : list submission :=
  [ mkSubmission 0 (Some DuplicateKeyError) "Page" (record 1);
    mkSubmission 1 (Some DuplicateKeyError) "Page" (record 2) ].


(** * Properties *)

(** ** Reasoning about runs *)

Ltac py_unfold :=
  unfold getitem, unbound_name, driver_call, entry_fields, subscript, py_iter,
    store_current_item, store_item_buffer, store_duplicate_key_count,
    store_collection, store_stop_on_duplicate, store_buffer_settings,
    regular_option;
  unfold store_config, try_except;
  unfold bind, ret, raise, get, modify, emit;
  cbn [set_config set_current_item set_item_buffer set_duplicate_key_count
       set_collection set_stop_on_duplicate set_buffer_settings
       config current_item item_buffer duplicate_key_count collection
       stop_on_duplicate buffer_settings
       catches_DuplicateKeyError isinstance_list negb app fst snd].

Ltac state_simpl :=
  cbn [set_config set_current_item set_item_buffer set_duplicate_key_count
       set_collection set_stop_on_duplicate set_buffer_settings
       config current_item item_buffer duplicate_key_count collection
       stop_on_duplicate buffer_settings] in *.

(** Case analysis on whatever the next step of a run depends on. *)
Ltac py_case :=
  match goal with
  | |- context [<[?k := ?v]> ?m !! ?k] => rewrite (lookup_insert_eq m k v)
  | H : ?m !! ?k = _ |- context [?m !! ?k] => rewrite H
  | |- context [match ?m !! ?k with _ => _ end] => destruct (m !! k) eqn:?
  | |- context [if ?b then _ else _] => destruct b eqn:?
  | |- context [match ?x with _ => _ end] => is_var x; destruct x
  end.

Ltac py_run := py_unfold; repeat (py_case; py_unfold).

Lemma bind_run {A B} (m : Py A) (k : A -> Py B) s :
  bind m k s =
    match m s with
    | (Ok a, s1, t1) => let '(r, s2, t2) := k a s1 in (r, s2, t1 ++ t2)
    | (Raise e, s1, t1) => (Raise e, s1, t1)
    end.
Proof. reflexivity. Qed.

Lemma run_eta {A} (x : res A * Pipeline * list event) :
  (let '(r, s, t) := x in (r, s, t)) = x.
Proof. destruct x as [[r s] t]. reflexivity. Qed.

Lemma same_but_duplicates_refl s : same_but_duplicates s s.
Proof. destruct s; reflexivity. Qed.

Lemma same_but_duplicates_trans s1 s2 s3 :
  same_but_duplicates s1 s2 -> same_but_duplicates s2 s3 ->
  same_but_duplicates s1 s3.
Proof.
  unfold same_but_duplicates. intros H12 H23.
  rewrite H23 at 1. rewrite H12. destruct s1; reflexivity.
Qed.

Lemma on_duplicate_key_frame itype s :
  same_but_duplicates s (on_duplicate_key itype s).1.2.
Proof.
  unfold on_duplicate_key, same_but_duplicates.
  py_run; destruct s; reflexivity.
Qed.

Lemma key_filter_state item keys key s :
  (key_filter item keys key s).1.2 = s.
Proof.
  revert key. induction keys as [|k keys IH]; intros key; [reflexivity|].
  cbn [key_filter]. rewrite bind_run.
  destruct item as [d|l]; py_unfold.
  - destruct (dict_get k d); py_unfold; [|reflexivity].
    specialize (IH (dict_set k f key)).
    destruct (key_filter _ keys _ s) as [[r s2] t2]. exact IH.
  - reflexivity.
Qed.

(** [insert_item] touches nothing but the duplicate counters. *)
Lemma insert_item_frame now answer item itype s :
  same_but_duplicates s (insert_item now answer item itype s).1.2.
Proof.
  unfold insert_item.
  pose proof (on_duplicate_key_frame itype s) as Hdup.
  destruct (on_duplicate_key itype s) as [[rd sd] td] eqn:Hd.
  py_unfold.
  destruct (Cfg.collection (config s) !! itype) as [entry|];
    py_unfold; [|apply same_but_duplicates_refl].
  destruct item as [d|l]; py_unfold; [apply same_but_duplicates_refl|].
  destruct entry as [c|]; py_unfold; [|apply same_but_duplicates_refl].
  destruct (Coll.unique_key c) as [|f|keys]; py_unfold.
  - destruct (collection s !! itype); py_unfold; [|apply same_but_duplicates_refl].
    destruct answer as [e|]; py_unfold; [|apply same_but_duplicates_refl].
    destruct e; py_unfold; try apply same_but_duplicates_refl.
    rewrite Hd. destruct rd; exact Hdup.
  - cbn [key_filter]. py_unfold. apply same_but_duplicates_refl.
  - pose proof (key_filter_state (Batch l) (dict_keys keys) [] s) as Hk.
    destruct (key_filter _ _ _ s) as [[rk sk] tk]. cbn in Hk. subst sk.
    destruct rk; py_unfold; [|apply same_but_duplicates_refl].
    destruct (collection s !! itype); py_unfold; [|apply same_but_duplicates_refl].
    destruct answer as [e|]; py_unfold; apply same_but_duplicates_refl.
Qed.

(** A single item never gets past the unbound name in [insert_item]. *)
Lemma insert_item_single now answer d itype s entry :
  Cfg.collection (config s) !! itype = Some entry ->
  insert_item now answer (One d) itype s = (Raise (NameError "collecgtion"), s, []).
Proof.
  intros Hentry. unfold insert_item. py_run. reflexivity.
Qed.

(** An item type without an entry in [config['collection']]: the subscript
    raises before the fallback to ["default"] is reached. *)
Lemma process_item_unknown_type now answer t item s :
  Cfg.collection (config s) !! t = None ->
  process_item now answer t item s = (Raise (KeyError t), s, []).
Proof.
  intros Hentry. unfold process_item. py_run. reflexivity.
Qed.

(** A type without buffer: the item goes to [insert_item] on its own. *)
Lemma process_item_unbuffered now answer t item s c :
  Cfg.collection (config s) !! t = Some (Some c) ->
  buffer_settings s !! t = Some 0 ->
  process_item now answer t item s = insert_item now answer (One item) t s.
Proof.
  intros Hentry Hbs. unfold process_item.
  py_unfold. rewrite Hentry. py_unfold. rewrite Hentry. py_unfold.
  rewrite Hbs. py_unfold. cbn [Z.eqb negb].
  rewrite !run_eta. reflexivity.
Qed.

(** A buffered type: the item is appended and counted; when the count
    reaches [collection['buffer']] the count goes back to zero and the
    whole buffer is handed to [insert_item]. *)
Lemma process_item_buffered now answer t item s c bs n pending :
  Cfg.collection (config s) !! t = Some (Some c) ->
  buffer_settings s !! t = Some bs ->
  bs <> 0 ->
  current_item s !! t = Some n ->
  item_buffer s !! t = Some pending ->
  let item' := if Coll.append_timestamp c then stamp now item else item in
  process_item now answer t item s =
    if reaches (Coll.buffer c) (n + 1) then
      insert_item now answer (Batch (pending ++ [item'])) t
                  (enqueue t 0 (pending ++ [item']) s)
    else (Ok (One item'), enqueue t (n + 1) (pending ++ [item']) s, []).
Proof.
  intros Hentry Hbs Hnz Hn Hbuf item'. unfold process_item.
  py_unfold. rewrite Hentry. py_unfold. rewrite Hentry. py_unfold.
  rewrite Hbs. py_unfold.
  destruct (bs =? 0) eqn:Hz; [apply Z.eqb_eq in Hz; contradiction|].
  py_unfold. rewrite Hn. py_unfold. rewrite Hbuf. py_unfold.
  rewrite lookup_insert_eq. py_unfold.
  fold item'. unfold reaches.
  destruct (Coll.buffer c) as [b|]; [|reflexivity].
  destruct (n + 1 =? b); [|reflexivity].
  py_unfold. rewrite lookup_insert_eq. py_unfold.
  rewrite insert_insert_eq. unfold enqueue.
  rewrite !run_eta. reflexivity.
Qed.

(** ** Start-up invariants along a run *)

Lemma started_same_but_duplicates s s' :
  same_but_duplicates s s' -> started s -> started s'.
Proof.
  unfold same_but_duplicates. intros -> Hs itype entry Hentry.
  destruct (Hs itype entry Hentry) as (c & -> & [H1 H2 H3 H4 H5 H6]).
  exists c. split; [reflexivity|]. split; assumption.
Qed.

Lemma started_enqueue t n pending s :
  started s -> started (enqueue t n pending s).
Proof.
  intros Hs itype entry Hentry.
  destruct (Hs itype entry Hentry) as (c & -> & [H1 H2 H3 H4 H5 H6]).
  exists c. split; [reflexivity|].
  split; try assumption; unfold enqueue; py_unfold.
  - destruct (decide (t = itype)) as [->|Hne];
      [rewrite lookup_insert_eq; eauto | rewrite lookup_insert_ne; auto].
  - destruct (decide (t = itype)) as [->|Hne];
      [rewrite lookup_insert_eq; eauto | rewrite lookup_insert_ne; auto].
Qed.

Lemma process_item_counts now answer t item s :
  started s ->
  let s' := (process_item now answer t item s).1.2 in
  started s' /\ config s' = config s /\ current_item s' = counted t s.
Proof.
  intros Hs s'. subst s'. unfold counted.
  destruct (Cfg.collection (config s) !! t) as [entry|] eqn:Hentry.
  2:{ rewrite process_item_unknown_type by assumption. cbn. auto. }
  destruct (Hs t entry Hentry) as (c & -> & [Hbs [n Hn] [pending Hbuf] _ _ _]).
  rewrite Hn.
  destruct (truthy_int (Coll.buffer c)) eqn:Htruthy.
  - destruct (Coll.buffer c) as [b|] eqn:Hb; [|discriminate].
    cbn [default] in Hbs. cbn [truthy_int] in Htruthy.
    assert (b <> 0) as Hnz.
    { intros ->. discriminate. }
    rewrite (process_item_buffered now answer t item s c b n pending)
      by (rewrite ?Hb; assumption).
    rewrite Hb. cbn [reaches].
    set (item' := if Coll.append_timestamp c then stamp now item else item).
    destruct (n + 1 =? b) eqn:Hreach.
    + pose proof (insert_item_frame now answer (Batch (pending ++ [item'])) t
                    (enqueue t 0 (pending ++ [item']) s)) as Hframe.
      destruct (insert_item _ _ _ _ _) as [[r s1] tr]. cbn [fst snd] in *.
      split; [|split].
      * eapply started_same_but_duplicates; [exact Hframe|].
        apply started_enqueue, Hs.
      * rewrite Hframe. reflexivity.
      * rewrite Hframe. reflexivity.
    + cbn [fst snd]. split; [|split].
      * apply started_enqueue, Hs.
      * reflexivity.
      * reflexivity.
  - rewrite (process_item_unbuffered now answer t item s c) by assumption.
    rewrite (insert_item_single now answer item t s (Some c)) by assumption.
    cbn. auto.
Qed.

Lemma count_step n N :
  0 <= n < N -> (if n + 1 =? N then 0 else n + 1) = (n + 1) mod N.
Proof.
  intros Hn. destruct (Z.eqb_spec (n + 1) N) as [<-|Hne].
  - symmetry. apply Z_mod_same_full.
  - symmetry. apply Z.mod_small. lia.
Qed.

(** The count of a buffered type after a run is the number of its
    submissions, modulo the threshold. *)
Lemma submit_all_count itype c N subs :
  forall s n,
    started s ->
    Cfg.collection (config s) !! itype = Some (Some c) ->
    Coll.buffer c = Some N -> 0 < N ->
    current_item s !! itype = Some n -> 0 <= n < N ->
    current_item (submit_all subs s).2 !! itype =
      Some ((n + submissions_of itype subs) mod N).
Proof.
  induction subs as [|x subs IH]; intros s n Hs Hentry Hb HN Hn Hrange.
  - cbn. rewrite Z.add_0_r, Z.mod_small by lia. exact Hn.
  - cbn [submit_all].
    destruct (process_item_counts (at_time x) (driver_answer x) (type_name x)
                (fields x) s Hs) as (Hs1 & Hcfg & Hcount).
    destruct (process_item _ _ _ _ s) as [[r s1] tr]. cbn [fst snd] in *.
    specialize (IH s1).
    destruct (submit_all subs s1) as [rs s2]. cbn [fst snd] in *.
    unfold submissions_of in *. cbn [List.filter].
    destruct (String.eqb_spec (type_name x) itype) as [Heq|Hne].
    + rewrite Heq in Hcount. unfold counted in Hcount.
      rewrite Hentry, Hn, Hb in Hcount. cbn [truthy_int reaches] in Hcount.
      destruct (Z.eqb_spec N 0) as [?|_]; [lia|]. cbn [negb] in Hcount.
      rewrite count_step in Hcount by assumption.
      rewrite (IH ((n + 1) mod N)); try assumption.
      * f_equal. cbn [length]. rewrite Nat2Z.inj_succ.
        rewrite Zplus_mod_idemp_l. f_equal. lia.
      * congruence.
      * rewrite Hcount. apply lookup_insert_eq.
      * apply Z.mod_pos_bound. lia.
    + assert (current_item s1 !! itype = Some n) as Hn1.
      { rewrite Hcount. unfold counted.
        destruct (Cfg.collection (config s) !! type_name x) as [[c'|]|];
          try assumption.
        destruct (current_item s !! type_name x); try assumption.
        destruct (truthy_int (Coll.buffer c')); try assumption.
        rewrite lookup_insert_ne by assumption. assumption. }
      apply IH; try assumption. congruence.
Qed.

(** ** Start-up *)

Lemma config_only_ret {A} (a : A) : config_only (ret a).
Proof. intros [cfg ci ib dk co sd bs]. split; reflexivity. Qed.

Lemma config_only_raise {A} e : config_only (@raise A e).
Proof. intros [cfg ci ib dk co sd bs]. split; reflexivity. Qed.

Lemma config_only_store_config f : config_only (store_config f).
Proof. intros [cfg ci ib dk co sd bs]. split; reflexivity. Qed.

Lemma config_only_bind {A B} (m : Py A) (k : A -> Py B) :
  config_only m -> (forall a, config_only (k a)) -> config_only (bind m k).
Proof.
  intros Hm Hk s. rewrite bind_run. specialize (Hm s).
  destruct (m s) as [[[a|e] s1] t1]; cbn [fst snd] in *.
  - specialize (Hk a s1). destruct (k a s1) as [[r s2] t2]. cbn [fst snd] in *.
    destruct Hm as [-> Hm], Hk as [-> Hk]. split; [reflexivity|].
    rewrite Hk at 1. rewrite Hm. reflexivity.
  - exact Hm.
Qed.

Lemma config_only_format_field fa v spec : config_only (format_field fa v spec).
Proof.
  unfold format_field.
  destruct spec as [|c [|c' spec]]; try apply config_only_ret;
    try destruct (_ && _); try apply config_only_raise;
    destruct (fa v _); auto using config_only_ret, config_only_raise.
Qed.

Lemma config_only_regular_option v key : config_only (regular_option v key).
Proof.
  unfold regular_option.
  destruct (negb _); auto using config_only_ret, config_only_store_config.
Qed.

Ltac config_only_steps :=
  repeat first
    [ apply config_only_ret
    | apply config_only_store_config
    | apply config_only_regular_option
    | apply config_only_format_field
    | apply config_only_bind; [|intros ?]
    | match goal with
      | |- config_only (if ?b then _ else _) => destruct b
      | |- config_only (match ?x with _ => _ end) => destruct x
      end ].

(** [configure] calls nothing outside and writes nothing but [config]. *)
Lemma configure_frame fa settings s :
  (configure fa settings s).2 = [] /\
  (configure fa settings s).1.2 =
    set_config (config (configure fa settings s).1.2) s.
Proof.
  revert s. change (config_only (configure fa settings)).
  unfold configure. config_only_steps.
Qed.

Lemma open_spider_entry_run drv itype c s :
  open_spider_entry drv itype (Some c) s =
    let tr := index_calls c in
    match (if truthy_key (Coll.unique_key c)
           then ensure_index_answer drv itype else None) with
    | Some e => (Raise e, entered itype c s, tr)
    | None =>
        if kept (Coll.stop_on_duplicate c) <? 0
        then (Raise (SyntaxError negative_message), entered itype c s, tr)
        else (Ok tt,
              set_stop_on_duplicate
                (<[itype := kept (Coll.stop_on_duplicate c)]> (stop_on_duplicate s))
                (entered itype c s),
              tr)
    end.
Proof.
  unfold open_spider_entry, index_calls, entered, negative_message.
  unfold kept. py_unfold.
  destruct (truthy_int (Coll.buffer c)); py_unfold;
    (destruct (truthy_key (Coll.unique_key c)); py_unfold;
     [destruct (ensure_index_answer drv itype); py_unfold; [reflexivity|]|];
     (destruct (truthy_int (Coll.stop_on_duplicate c)); py_unfold;
      [destruct (default 0 (Coll.stop_on_duplicate c) <? 0)|];
      reflexivity)).
Qed.

Lemma open_spider_entry_none drv itype s :
  exists msg, open_spider_entry drv itype None s = (Raise (TypeError msg), s, []).
Proof. eexists. reflexivity. Qed.

Lemma set_up_same_at k c s s' :
  same_at k s s' -> set_up s k c -> set_up s' k c.
Proof.
  intros (H1 & H2 & H3 & H4 & H5) ([I1 I2 I3 I4 I5 I6] & I7 & I8).
  split; [split|split]; rewrite ?H1, ?H2, ?H3, ?H4, ?H5; assumption.
Qed.

Lemma kept_nonneg v : (kept v <? 0) = false -> 0 <= default 0 v.
Proof.
  unfold kept, truthy_int. intros H. apply Z.ltb_ge in H.
  destruct v as [n|]; simpl in *; [|lia].
  destruct (Z.eqb_spec n 0); simpl in H; lia.
Qed.

Lemma open_spider_entry_ok drv k entry s s' tr :
  open_spider_entry drv k entry s = (Ok tt, s', tr) ->
  exists c, entry = Some c /\ set_up s' k c /\
            config s' = config s /\
            duplicate_key_count s' = duplicate_key_count s /\
            forall k', k' <> k -> same_at k' s s'.
Proof.
  destruct entry as [c|].
  2:{ destruct (open_spider_entry_none drv k s) as [msg ->]. discriminate. }
  rewrite open_spider_entry_run. cbn zeta.
  destruct (if truthy_key _ then _ else _); [discriminate|].
  destruct (kept (Coll.stop_on_duplicate c) <? 0) eqn:Hneg; [discriminate|].
  intros [= <- _]. exists c. split; [reflexivity|].
  unfold set_up, same_at, entered. py_unfold.
  fold (kept (Coll.buffer c)). fold (kept (Coll.stop_on_duplicate c)).
  split; [|split; [reflexivity|split; [reflexivity|]]].
  - split; [split|split]; state_simpl; rewrite ?lookup_insert_eq;
      eauto using kept_nonneg.
  - intros k' Hne. state_simpl. rewrite !lookup_insert_ne by congruence. auto.
Qed.

Lemma same_at_trans k s1 s2 s3 :
  same_at k s1 s2 -> same_at k s2 s3 -> same_at k s1 s3.
Proof.
  unfold same_at. intros (A1 & A2 & A3 & A4 & A5) (B1 & B2 & B3 & B4 & B5).
  rewrite B1, B2, B3, B4, B5. auto.
Qed.

(** The loop of [open_spider], when it ends without exception: every entry
    it went through is set up, and types it did not meet are untouched. *)
Lemma open_spider_loop_ok drv (l : list (string * option Coll.t)) :
  NoDup l.*1 ->
  forall s s' tr,
    for_each l (fun kv => open_spider_entry drv kv.1 kv.2) s = (Ok tt, s', tr) ->
    config s' = config s /\
    duplicate_key_count s' = duplicate_key_count s /\
    (forall k entry, (k, entry) ∈ l -> exists c, entry = Some c /\ set_up s' k c) /\
    (forall k, k ∉ l.*1 -> same_at k s s').
Proof.
  induction l as [|[k entry] l IH]; intros Hnodup s s' tr Hrun.
  - cbn in Hrun. injection Hrun as <- _.
    repeat split; try reflexivity. intros k entry Hin. inversion Hin.
  - cbn [for_each fst snd] in Hrun. rewrite bind_run in Hrun.
    destruct (open_spider_entry drv k entry s) as [[r1 s1] t1] eqn:Hbody.
    destruct r1 as [[]|e]; [|discriminate].
    destruct (for_each l _ s1) as [[r2 s2] t2] eqn:Hrest.
    injection Hrun as -> -> _.
    cbn [fmap list_fmap fst] in Hnodup. apply NoDup_cons in Hnodup as [Hk Hnodup].
    destruct (open_spider_entry_ok _ _ _ _ _ _ Hbody)
      as (c & -> & Hc & Hcfg & Hdup & Hothers).
    destruct (IH Hnodup _ _ _ Hrest) as (Hcfg' & Hdup' & Hdone & Hrest').
    split; [congruence|]. split; [congruence|]. split.
    + intros k' entry' Hin. apply elem_of_cons in Hin as [[= -> ->]|Hin].
      * exists c. split; [reflexivity|].
        eapply set_up_same_at; [apply Hrest', Hk|exact Hc].
      * eauto.
    + intros k' Hk'. cbn [fmap list_fmap fst] in Hk'.
      apply not_elem_of_cons in Hk' as [Hne Hk'].
      eapply same_at_trans; [apply Hothers, Hne|apply Hrest', Hk'].
Qed.

(** A successful [open_spider] leaves a fresh pipeline. *)
Lemma open_spider_fresh fa drv settings s s' tr :
  open_spider fa drv settings s = (Ok tt, s', tr) -> fresh s'.
Proof.
  unfold open_spider. rewrite bind_run.
  destruct (configure fa settings s) as [[r0 s0] t0] eqn:Hconf.
  destruct r0 as [[]|e]; [|discriminate].
  py_unfold.
  destruct (connect_answer drv); py_unfold; [discriminate|].
  match goal with |- context [for_each ?l ?b ?st] =>
    destruct (for_each l b st) as [[r1 s1] t1] eqn:Hloop end.
  destruct r1 as [[]|e]; [|discriminate].
  intros [= <- _].
  apply open_spider_loop_ok in Hloop as (Hcfg & _ & Hdone & _);
    [|apply NoDup_fst_map_to_list].
  cbn [config] in Hcfg.
  assert (forall k entry, Cfg.collection (config s1) !! k = Some entry ->
                          exists c, entry = Some c /\ set_up s1 k c) as Hall.
  { intros k entry Hentry. apply Hdone, elem_of_map_to_list.
    rewrite Hcfg in Hentry. exact Hentry. }
  split.
  - intros k entry Hentry. destruct (Hall k entry Hentry) as (c & -> & Hc & _).
    eauto.
  - intros k entry Hentry. destruct (Hall k entry Hentry) as (c & -> & _ & Hc).
    exact Hc.
Qed.

(** ** The accumulation count (C8) *)

(** C8. For every item type with buffer threshold N > 0, after any number
    of [process_item] calls on a pipeline that [open_spider] started, the
    count [current_item] of the type lies in 0..N-1: it is the number of
    submissions of the type modulo N, so it never reaches the threshold, is
    never negative, and is 0 right after each flush. *)
Theorem C8_count_below_threshold fa drv settings p0 p tr subs itype c N :
  open_spider fa drv settings p0 = (Ok tt, p, tr) ->
  Cfg.collection (config p) !! itype = Some (Some c) ->
  Coll.buffer c = Some N ->
  0 < N ->
  exists k,
    current_item (submit_all subs p).2 !! itype = Some k /\
    0 <= k < N /\
    k = submissions_of itype subs mod N.
Proof.
  intros Hopen Hentry Hb HN.
  apply open_spider_fresh in Hopen as [Hstarted Hzero].
  destruct (Hzero itype _ Hentry) as [Hcount _].
  exists (submissions_of itype subs mod N).
  split; [|split; [apply Z.mod_pos_bound; lia|reflexivity]].
  rewrite (submit_all_count itype c N subs p 0) by (assumption || lia).
  reflexivity.
Qed.

Lemma C8_count_below_threshold_witness :
  exists k,
    current_item (submit_all [page 1; page 2; page 3] page_pipeline).2 !! "Page"
      = Some k /\
    0 <= k < 2 /\
    k = submissions_of "Page" [page 1; page 2; page 3] mod 2.
Proof.
  apply (C8_count_below_threshold plain_format good_driver page_settings
           new_pipeline page_pipeline
           [EvMongoClient (SStr "mongodb://localhost:27017") (SBool false) PRIMARY]
           [page 1; page 2; page 3] "Page" page_entry 2).
  - vm_compute. reflexivity.
  - vm_compute. reflexivity.
  - reflexivity.
  - lia.
Defined.

(** ** Buffering and flushing (C1) *)


(** C1. With a buffer threshold of 2, four records of the type: the second
    submission flushes the first two records in order and resets the count,
    but the buffer is still full afterwards, and the flush at the fourth
    submission sends the first two records again, ahead of the last two. *)
Theorem C1_buffer_not_cleared :
  let after_two := (submit_all [page 1; page 2] page_pipeline).2 in
  (submit_all [page 1; page 2; page 3; page 4] page_pipeline).1 =
    [ (Ok (One (record 1)), []);
      (Ok (Batch [record 1; record 2]),
       [EvInsert "pages" (Batch [record 1; record 2])]);
      (Ok (One (record 3)), []);
      (Ok (Batch [record 1; record 2; record 3; record 4]),
       [EvInsert "pages" (Batch [record 1; record 2; record 3; record 4])]) ] /\
  current_item after_two !! "Page" = Some 0 /\
  item_buffer after_two !! "Page" = Some [record 1; record 2].
Proof. vm_compute. repeat split; reflexivity. Qed.

(** ** Upsert on a unique key (C3) *)

Lemma dict_keys_nonempty {V} (l : list (string * V)) :
  l <> [] -> dict_keys l <> [].
Proof.
  destruct l as [|[k v] l]; [congruence|]. intros _. cbn [dict_keys].
  destruct (existsb (String.eqb k) (dict_keys l)) eqn:Hex; [|congruence].
  intros Heq. rewrite Heq in Hex. discriminate.
Qed.

(** For a type with a unique key, [insert_item] raises before it reaches
    the store, for a single item as for a batch. *)
Lemma insert_item_keyed now answer item itype s c :
  Cfg.collection (config s) !! itype = Some (Some c) ->
  truthy_key (Coll.unique_key c) = true ->
  exists e, insert_item now answer item itype s = (Raise e, s, []).
Proof.
  intros Hentry Hkey. destruct item as [d|l].
  - rewrite (insert_item_single _ _ _ _ _ _ Hentry). eauto.
  - unfold insert_item. py_unfold. rewrite Hentry. py_unfold.
    destruct (Coll.unique_key c) as [|f|keys]; [discriminate| |].
    + cbn [key_filter]. py_unfold. eauto.
    + assert (dict_keys keys <> []) as Hne.
      { apply dict_keys_nonempty. destruct keys; [discriminate|congruence]. }
      destruct (dict_keys keys) as [|k ks]; [congruence|].
      cbn [key_filter]. py_unfold. eauto.
Qed.

(** C3. A record of a type with a unique key never reaches the upsert: a
    single record stops at the unbound name [collecgtion], a batch at the
    subscript of a list by a field name.  No [update] is sent. *)
Theorem C3_upsert_not_reached :
  (process_item 0 None "Doc" (record 1) keyed_pipeline).1.1 =
    Raise (NameError "collecgtion") /\
  (process_item 0 None "Doc" (record 1) keyed_pipeline).2 = [] /\
  (process_item 0 None "Row" (record 1) keyed_pipeline).1.1 =
    Raise (TypeError "list indices must be integers, not str") /\
  (process_item 0 None "Row" (record 1) keyed_pipeline).2 = [] /\
  (process_item 0 None "Pair" [("id", FInt 1); ("lang", FStr "en")]
                keyed_pipeline).1.1 =
    Raise (TypeError "list indices must be integers, not str") /\
  (process_item 0 None "Pair" [("id", FInt 1); ("lang", FStr "en")]
                keyed_pipeline).2 = [].
Proof. vm_compute. repeat split; reflexivity. Qed.

(** ** Shutdown (C4) *)

(** C4. [close_spider] raises [TypeError] in every state, before any
    buffer is looked at: nothing is handed to [insert_item]. *)
Theorem C4_close_spider_raises now answer s :
  close_spider now answer s =
    (Raise (TypeError "'builtin_function_or_method' object is not iterable"),
     s, []).
Proof. reflexivity. Qed.

Example close_spider_with_pending :
  item_buffer pending_pipeline !! "A" = Some [record 1; record 3] /\
  item_buffer pending_pipeline !! "B" = Some [record 2] /\
  (close_spider 0 (fun _ => None) pending_pipeline).1.1 =
    Raise (TypeError "'builtin_function_or_method' object is not iterable") /\
  store_writes (close_spider 0 (fun _ => None) pending_pipeline).2 = 0%nat.
Proof. vm_compute. repeat split; reflexivity. Qed.

(** ** Routing (C5) *)


(** C5. An item whose type has no entry in the routing table is not sent
    to ["default"]: the lookup of its type raises [KeyError]. *)
Theorem C5_unknown_type_raises :
  process_item 0 None "Foo" (record 1) page_pipeline =
    (Raise (KeyError "Foo"), page_pipeline, []).
Proof. apply process_item_unknown_type. vm_compute. reflexivity. Qed.

(** ** Duplicate keys (C2, C7) *)


(** The counter of a type that was never given a start value. *)
Lemma on_duplicate_key_uncounted itype s T :
  stop_on_duplicate s !! itype = Some T ->
  0 < T ->
  duplicate_key_count s !! itype = None ->
  on_duplicate_key itype s = (Raise (KeyError itype), s, []).
Proof.
  intros Hstop HT Hn. unfold on_duplicate_key. py_unfold.
  rewrite Hstop. py_unfold.
  destruct (Z.ltb_spec 0 T) as [_|?]; [|lia].
  py_unfold. rewrite Hn. reflexivity.
Qed.

(** A batch for a type without unique key: one [insert], and the handler
    when the driver answers with a duplicate key. *)
Lemma insert_item_batch now answer b itype s c h :
  Cfg.collection (config s) !! itype = Some (Some c) ->
  Coll.unique_key c = UKNone ->
  collection s !! itype = Some h ->
  insert_item now answer (Batch b) itype s =
    match answer with
    | None => (Ok (Batch b), s, [EvInsert h (Batch b)])
    | Some DuplicateKeyError =>
        match on_duplicate_key itype s with
        | (Ok _, s', tr) => (Ok (Batch b), s', EvInsert h (Batch b) :: tr)
        | (Raise e, s', tr) => (Raise e, s', EvInsert h (Batch b) :: tr)
        end
    | Some e => (Raise e, s, [EvInsert h (Batch b)])
    end.
Proof.
  intros Hentry Hkey Hh. unfold insert_item. py_unfold.
  rewrite Hentry. py_unfold. rewrite Hkey. py_unfold. rewrite Hh. py_unfold.
  destruct answer as [e|]; [|reflexivity].
  destruct e; py_unfold; try reflexivity.
  destruct (on_duplicate_key itype s) as [[[[]|e] s'] tr];
    rewrite ?app_nil_r; reflexivity.
Qed.





(** [open_spider] gives the duplicate counters no start value, and no
    method adds one: after start-up the first violation of a type with a
    threshold raises [KeyError] where the counter is read. *)
Lemma open_spider_duplicate_key_count fa drv settings s s' tr :
  open_spider fa drv settings s = (Ok tt, s', tr) ->
  duplicate_key_count s' = duplicate_key_count s.
Proof.
  unfold open_spider. rewrite bind_run.
  pose proof (configure_frame fa settings s) as [_ Hconf].
  destruct (configure fa settings s) as [[r0 s0] t0].
  cbn [fst snd] in Hconf.
  destruct r0 as [[]|e]; [|discriminate].
  py_unfold.
  destruct (connect_answer drv); py_unfold; [discriminate|].
  match goal with |- context [for_each ?l ?b ?st] =>
    destruct (for_each l b st) as [[r1 s1] t1] eqn:Hloop end.
  destruct r1 as [[]|e]; [|discriminate].
  intros [= <- _].
  apply open_spider_loop_ok in Hloop as (_ & Hdup & _);
    [|apply NoDup_fst_map_to_list].
  rewrite Hdup. state_simpl. rewrite Hconf. reflexivity.
Qed.

Example first_violation_after_start :
  insert_item 0 (Some DuplicateKeyError) (Batch [record 1]) "Page"
              strict_pipeline =
    (Raise (KeyError "Page"), strict_pipeline,
     [EvInsert "pages" (Batch [record 1])]).
Proof.
  rewrite (insert_item_batch 0 _ [record 1] "Page" strict_pipeline
             strict_entry "pages") by (vm_compute; reflexivity).
  rewrite (on_duplicate_key_uncounted "Page" strict_pipeline 1)
    by (vm_compute; reflexivity || lia).
  reflexivity.
Qed.

(** ** A negative duplicate-stop threshold (C6) *)






(** ** The deprecated host and port settings (C9) *)

(** No value that counts as set accepts the presentation type ["i"]. *)
Lemma format_field_i fa v s :
  format_field fa v "i" s = (Raise (ValueError "Unknown format code"), s, []).
Proof. destruct v as [|[]| |]; reflexivity. Qed.

Lemma format_field_plain fa v s :
  format_field fa v "" s = (Ok (py_str v), s, []).
Proof. reflexivity. Qed.

(** C9. With MONGODB_HOST set: when MONGODB_PORT is set as well,
    [configure] raises the [ValueError] of the format spec ["{1:i}"] and
    writes nothing; when MONGODB_PORT is not set, [configure] succeeds, and
    the URI is ["mongodb://host:27017"] unless MONGODB_URI or the replica
    set hosts replace it. *)
Theorem C9_deprecated_host_port fa settings s :
  not_set (MONGODB_HOST settings) = false ->
  (not_set (MONGODB_PORT settings) = false ->
   configure fa settings s = (Raise (ValueError "Unknown format code"), s, [])) /\
  (not_set (MONGODB_PORT settings) = true ->
   exists s',
     configure fa settings s = (Ok tt, s', []) /\
     (not_set (MONGODB_URI settings) = true ->
      not_set (MONGODB_REPLICA_SET settings) = true \/
      not_set (MONGODB_REPLICA_SET_HOSTS settings) = true ->
      Cfg.uri (config s') =
        SStr ("mongodb://" +:+ py_str (MONGODB_HOST settings) +:+ ":27017"))).
Proof.
  intros Hhost. split; intros Hport.
  - unfold configure. rewrite Hhost, Hport. cbn [negb].
    unfold bind at 1 2 3. rewrite format_field_plain.
    cbn iota beta. rewrite format_field_i. reflexivity.
  - unfold configure. rewrite Hhost, Hport. cbn [negb].
    destruct s as [cfg ci ib dk co sd bs].
    unfold format_field. py_unfold.
    destruct (not_set (MONGODB_REPLICA_SET settings)) eqn:Hrs;
      destruct (not_set (MONGODB_REPLICA_SET_HOSTS settings)) eqn:Hrsh;
      destruct (not_set (MONGODB_URI settings)) eqn:Huri;
      destruct (not_set (MONGODB_FSYNC settings));
      destruct (not_set (MONGODB_REPLICA_SET_W settings));
      destruct (not_set (MONGODB_DATABASE settings));
      destruct (MONGODB_COLLECTION settings);
      py_unfold;
      (eexists; split; [reflexivity|]);
      intros Hu Hr; try discriminate; try reflexivity;
      destruct Hr; discriminate.
Qed.

Lemma C9_deprecated_host_port_witness :
  configure plain_format host_and_port new_pipeline =
    (Raise (ValueError "Unknown format code"), new_pipeline, []) /\
  exists s',
    configure plain_format host_only new_pipeline = (Ok tt, s', []) /\
    Cfg.uri (config s') = SStr "mongodb://db.example.org:27017".
Proof.
  split.
  - apply (C9_deprecated_host_port plain_format host_and_port new_pipeline);
      reflexivity.
  - destruct (C9_deprecated_host_port plain_format host_only new_pipeline
                eq_refl) as [_ Hok].
    destruct (Hok eq_refl) as (s' & Hrun & Huri).
    exists s'. split; [exact Hrun|].
    apply Huri; [reflexivity|left; reflexivity].
Defined.

(** ** The write concern (C10) *)

Lemma same_but_write_concern_refl s : same_but_write_concern s s.
Proof.
  exists (Cfg.write_concern (config s)).
  destruct s as [[u f wc d rs cl] ci ib dk co sd bs]. reflexivity.
Qed.

Lemma agree_ret {A} (a : A) : agree (ret a) (ret a).
Proof. intros s s' H. auto. Qed.

Lemma agree_raise {A} e : agree (@raise A e) (raise e).
Proof. intros s s' H. auto. Qed.

Lemma agree_bind {A B} (m m' : Py A) (k k' : A -> Py B) :
  agree m m' -> (forall a, agree (k a) (k' a)) -> agree (bind m k) (bind m' k').
Proof.
  intros Hm Hk s s' Hs. rewrite !bind_run. specialize (Hm s s' Hs).
  destruct (m s) as [[r1 s1] t1], (m' s') as [[r1' s1'] t1'].
  cbn [fst snd] in Hm. destruct Hm as (<- & <- & Hs1).
  destruct r1 as [a|e]; [|auto].
  specialize (Hk a s1 s1' Hs1).
  destruct (k a s1) as [[r2 s2] t2], (k' a s1') as [[r2' s2'] t2'].
  cbn [fst snd] in *. destruct Hk as (<- & <- & Hs2). auto.
Qed.

(** A write to [config] that leaves the write concern alone. *)
Lemma agree_store_config f :
  (forall w c, f (config_write_concern w c) = config_write_concern w (f c)) ->
  agree (store_config f) (store_config f).
Proof.
  intros Hf s s' [w ->]. repeat split. exists w.
  unfold store_config, modify. cbn [fst snd]. state_simpl.
  rewrite Hf. reflexivity.
Qed.

Lemma agree_format_field fa v spec :
  agree (format_field fa v spec) (format_field fa v spec).
Proof.
  unfold format_field.
  destruct spec as [|c [|c' spec]]; try apply agree_ret;
    try destruct (_ && _); try apply agree_raise;
    destruct (fa v _); auto using agree_ret, agree_raise.
Qed.

Lemma agree_regular_option v key :
  (forall w c, key v (config_write_concern w c) = config_write_concern w (key v c)) ->
  agree (regular_option v key) (regular_option v key).
Proof.
  intros Hkey. unfold regular_option.
  destruct (negb _); auto using agree_ret, agree_store_config.
Qed.

(** The write of the write concern itself, for any two values. *)
Lemma agree_write_concern v v' :
  agree (regular_option v config_write_concern)
        (regular_option v' config_write_concern).
Proof.
  intros s s' [w ->]. unfold regular_option, store_config, modify, ret.
  destruct s as [[u f wc d rs cl] ci ib dk co sd bs].
  destruct (negb (not_set v)), (negb (not_set v')); cbn [fst snd];
    repeat split; eexists; reflexivity.
Qed.

Ltac agree_steps :=
  repeat first
    [ apply agree_ret
    | apply agree_write_concern
    | apply agree_regular_option; intros ? [? ? ? ? ? ?]; reflexivity
    | apply agree_store_config; intros ? [? ? ? ? ? ?]; reflexivity
    | apply agree_format_field
    | apply agree_bind; [|intros ?]
    | match goal with
      | |- agree (if ?b then _ else _) (if ?b then _ else _) => destruct b
      | |- agree (match ?x with _ => _ end) (match ?x with _ => _ end) =>
          destruct x
      end ].

Lemma configure_agree fa settings w :
  agree (configure fa settings) (configure fa (with_write_concern w settings)).
Proof.
  unfold configure, with_write_concern.
  cbn [MONGODB_HOST MONGODB_PORT MONGODB_REPLICA_SET MONGODB_REPLICA_SET_HOSTS
       MONGODB_URI MONGODB_FSYNC MONGODB_REPLICA_SET_W MONGODB_DATABASE
       MONGODB_COLLECTION].
  agree_steps.
Qed.

(** MONGODB_REPLICA_SET_W reaches [config['write_concern']] and nothing
    else. *)
Lemma configure_write_concern fa settings w s :
  exists w',
    configure fa (with_write_concern w settings) s =
      let '(r, s1, tr) := configure fa settings s in
      (r, set_config (config_write_concern w' (config s1)) s1, tr).
Proof.
  destruct (configure_agree fa settings w s s (same_but_write_concern_refl s))
    as (Hr & Htr & w' & Hs).
  destruct (configure fa settings s) as [[r s1] tr].
  destruct (configure fa (with_write_concern w settings) s) as [[r' s1'] tr'].
  cbn [fst snd] in *. subst. exists w'. reflexivity.
Qed.

(** The loop body of [open_spider] neither reads nor writes [config]. *)
Lemma open_spider_entry_config drv k entry cfg s :
  open_spider_entry drv k entry (set_config cfg s) =
    let '(r, s', tr) := open_spider_entry drv k entry s in
    (r, set_config cfg s', tr).
Proof.
  destruct entry as [c|]; [|reflexivity].
  rewrite !open_spider_entry_run. cbn zeta.
  destruct (if truthy_key _ then _ else _); [reflexivity|].
  destruct (kept _ <? 0); reflexivity.
Qed.

Lemma open_spider_loop_config drv (l : list (string * option Coll.t)) cfg :
  forall s,
    for_each l (fun kv => open_spider_entry drv kv.1 kv.2) (set_config cfg s) =
      let '(r, s', tr) := for_each l (fun kv => open_spider_entry drv kv.1 kv.2) s in
      (r, set_config cfg s', tr).
Proof.
  induction l as [|[k entry] l IH]; intros s; [reflexivity|].
  cbn [for_each fst snd]. rewrite !bind_run, open_spider_entry_config.
  destruct (open_spider_entry drv k entry s) as [[[[]|e] s1] t1];
    [|reflexivity].
  rewrite IH.
  destruct (for_each l _ s1) as [[r2 s2] t2]. reflexivity.
Qed.

(** C10. In standalone mode (no replica set in the configuration) the
    connection is opened by [MongoClient] with the URI, the fsync flag and
    the primary read preference only, and the value of MONGODB_REPLICA_SET_W
    changes neither what [open_spider] returns nor any call it makes.  With
    a replica set, the connection is opened by [MongoReplicaSetClient] and
    carries [config['write_concern']]. *)
Theorem C10_write_concern_only_with_replica_set fa drv settings s s1 :
  configure fa settings s = (Ok tt, s1, []) ->
  (Cfg.replica_set (config s1) = SNone ->
   (exists tr,
      (open_spider fa drv settings s).2 =
        EvMongoClient (Cfg.uri (config s1)) (Cfg.fsync (config s1)) PRIMARY :: tr) /\
   (forall w,
      (open_spider fa drv (with_write_concern w settings) s).1.1 =
        (open_spider fa drv settings s).1.1 /\
      (open_spider fa drv (with_write_concern w settings) s).2 =
        (open_spider fa drv settings s).2)) /\
  (Cfg.replica_set (config s1) <> SNone ->
   exists tr,
     (open_spider fa drv settings s).2 =
       EvMongoReplicaSetClient (Cfg.uri (config s1)) (Cfg.replica_set (config s1))
         (Cfg.write_concern (config s1)) (Cfg.fsync (config s1))
         PRIMARY_PREFERRED :: tr).
Proof.
  intros Hconf.
  assert (forall ev, exists tr,
             connection_event (config s1) = ev ->
             (open_spider fa drv settings s).2 = ev :: tr) as Hhead.
  { intros ev. unfold open_spider. rewrite bind_run, Hconf. py_unfold.
    destruct (connect_answer drv); py_unfold.
    - eexists. intros <-. reflexivity.
    - match goal with |- context [for_each ?l ?b ?st] =>
        destruct (for_each l b st) as [[r2 s2] t2] end.
      eexists. intros <-. reflexivity. }
  split.
  - intros Hrs. split.
    + destruct (Hhead (EvMongoClient (Cfg.uri (config s1))
                         (Cfg.fsync (config s1)) PRIMARY)) as [tr Htr].
      exists tr. apply Htr. unfold connection_event. rewrite Hrs. reflexivity.
    + intros w.
      destruct (configure_write_concern fa settings w s) as [w' Hw].
      rewrite Hconf in Hw.
      unfold open_spider. rewrite !bind_run, Hw, Hconf. py_unfold.
      assert (connection_event (config_write_concern w' (config s1)) =
              connection_event (config s1)) as ->.
      { unfold connection_event, config_write_concern.
        cbn [Cfg.replica_set Cfg.uri Cfg.fsync]. rewrite Hrs. reflexivity. }
      destruct (connect_answer drv); py_unfold; [split; reflexivity|].
      change (set_buffer_settings ∅
                (set_stop_on_duplicate ∅
                   (set_collection ∅
                      (set_config (config_write_concern w' (config s1)) s1))))
        with (set_config (config_write_concern w' (config s1))
                (set_buffer_settings ∅
                   (set_stop_on_duplicate ∅ (set_collection ∅ s1)))).
      change (Cfg.collection (config_write_concern w' (config s1)))
        with (Cfg.collection (config s1)).
      rewrite open_spider_loop_config.
      destruct (for_each _ _ _) as [[r2 s2] t2]. split; reflexivity.
  - intros Hrs.
    destruct (Hhead (EvMongoReplicaSetClient (Cfg.uri (config s1))
                       (Cfg.replica_set (config s1))
                       (Cfg.write_concern (config s1))
                       (Cfg.fsync (config s1)) PRIMARY_PREFERRED)) as [tr Htr].
    exists tr. apply Htr. unfold connection_event.
    destruct (Cfg.replica_set (config s1)); [congruence|reflexivity..].
Qed.

Lemma C10_write_concern_only_with_replica_set_witness :
  (forall w,
     (open_spider plain_format good_driver
        (with_write_concern w page_settings) new_pipeline).2 =
       (open_spider plain_format good_driver page_settings new_pipeline).2) /\
  exists tr,
    (open_spider plain_format good_driver replica_settings new_pipeline).2 =
      EvMongoReplicaSetClient (SStr "mongodb://localhost:27017") (SStr "rs0")
        (SInt 2) (SBool true) PRIMARY_PREFERRED :: tr.
Proof.
  split.
  - intros w.
    destruct (C10_write_concern_only_with_replica_set plain_format good_driver
                page_settings new_pipeline
                (configure plain_format page_settings new_pipeline).1.2)
      as [Hstandalone _]; [vm_compute; reflexivity|].
    destruct Hstandalone as [_ Hsame]; [vm_compute; reflexivity|].
    apply Hsame.
  - destruct (C10_write_concern_only_with_replica_set plain_format good_driver
                replica_settings new_pipeline
                (configure plain_format replica_settings new_pipeline).1.2)
      as [_ Hreplica]; [vm_compute; reflexivity|].
    apply Hreplica. vm_compute. discriminate.
Defined.

(** * Further properties of the module *)

(** ** [configure] *)

(** [configure] in closed form: it raises when the deprecated host and port
    are both set, and otherwise resolves every option. *)
Lemma configure_run fa st s :
  configure fa st s =
    if negb (not_set (MONGODB_HOST st)) && negb (not_set (MONGODB_PORT st))
    then (Raise (ValueError "Unknown format code"), s, [])
    else (Ok tt, set_config (resolved st (config s)) s, []).
Proof.
  unfold configure.
  destruct (not_set (MONGODB_HOST st)) eqn:Hhost;
    destruct (not_set (MONGODB_PORT st)) eqn:Hport; cbn [negb andb].
  4:{ unfold bind at 1 2 3. rewrite format_field_plain.
      cbn iota beta. rewrite format_field_i. reflexivity. }
  all: destruct s as [[u f wc d rs cl] ci ib dk co sd bs];
    unfold resolved, resolved_uri, option_value, format_field; py_unfold;
    rewrite ?Hhost; cbn [negb andb];
    destruct (not_set (MONGODB_REPLICA_SET st));
    destruct (not_set (MONGODB_REPLICA_SET_HOSTS st));
    destruct (not_set (MONGODB_URI st));
    destruct (not_set (MONGODB_FSYNC st));
    destruct (not_set (MONGODB_REPLICA_SET_W st));
    destruct (not_set (MONGODB_DATABASE st));
    destruct (MONGODB_COLLECTION st);
    reflexivity.
Qed.

(** X1. The URI after a successful [configure], by precedence: MONGODB_URI
    when it is set; else ["mongodb://" + hosts] when MONGODB_REPLICA_SET and
    MONGODB_REPLICA_SET_HOSTS are both set; and when neither applies and
    MONGODB_HOST is not set, the URI that was there before. *)
Theorem configure_uri_precedence fa st s s' tr :
  configure fa st s = (Ok tt, s', tr) ->
  (not_set (MONGODB_URI st) = false ->
   Cfg.uri (config s') = MONGODB_URI st) /\
  (not_set (MONGODB_URI st) = true ->
   not_set (MONGODB_REPLICA_SET st) = false ->
   not_set (MONGODB_REPLICA_SET_HOSTS st) = false ->
   Cfg.uri (config s') =
     SStr ("mongodb://" +:+ py_str (MONGODB_REPLICA_SET_HOSTS st))) /\
  (not_set (MONGODB_URI st) = true ->
   not_set (MONGODB_REPLICA_SET st) = true \/
   not_set (MONGODB_REPLICA_SET_HOSTS st) = true ->
   not_set (MONGODB_HOST st) = true ->
   Cfg.uri (config s') = Cfg.uri (config s)).
Proof.
  rewrite configure_run.
  destruct (negb _ && negb _); [discriminate|]. intros [= <- _].
  cbn [config set_config resolved Cfg.uri]. unfold resolved_uri.
  repeat split.
  - intros ->. reflexivity.
  - intros -> -> ->. reflexivity.
  - intros -> Hrs ->. cbn [negb].
    destruct Hrs as [-> | ->]; cbn [negb andb]; [reflexivity|].
    destruct (negb _); reflexivity.
Qed.

Lemma configure_uri_precedence_witness :
  Cfg.uri (config (configure plain_format uri_and_host new_pipeline).1.2) =
    SStr "mongodb://new.example.org:27017".
Proof.
  destruct (configure_uri_precedence plain_format uri_and_host new_pipeline
              (configure plain_format uri_and_host new_pipeline).1.2 [])
    as (Huri & _); [vm_compute; reflexivity|].
  apply Huri. reflexivity.
Defined.

(** X2. After a successful [configure] each regular option (fsync, write
    concern, database, replica set, collection table) holds its setting when
    the setting is set, a set value being anything but [None] and [''], so
    [False] and [0] count, and keeps the value of the class attribute
    otherwise; nothing but [config] is written and nothing is called. *)
Theorem configure_regular_options fa st s s' tr :
  configure fa st s = (Ok tt, s', tr) ->
  Cfg.fsync (config s') =
    (if not_set (MONGODB_FSYNC st) then Cfg.fsync (config s)
     else MONGODB_FSYNC st) /\
  Cfg.write_concern (config s') =
    (if not_set (MONGODB_REPLICA_SET_W st) then Cfg.write_concern (config s)
     else MONGODB_REPLICA_SET_W st) /\
  Cfg.database (config s') =
    (if not_set (MONGODB_DATABASE st) then Cfg.database (config s)
     else MONGODB_DATABASE st) /\
  Cfg.replica_set (config s') =
    (if not_set (MONGODB_REPLICA_SET st) then Cfg.replica_set (config s)
     else MONGODB_REPLICA_SET st) /\
  Cfg.collection (config s') =
    match MONGODB_COLLECTION st with
    | Some table => table
    | None => Cfg.collection (config s)
    end /\
  s' = set_config (config s') s /\
  tr = [].
Proof.
  rewrite configure_run.
  destruct (negb _ && negb _); [discriminate|]. intros [= <- <-].
  destruct s as [cfg ci ib dk co sd bs].
  cbn [config set_config resolved Cfg.fsync Cfg.write_concern Cfg.database
       Cfg.replica_set Cfg.collection].
  unfold option_value.
  destruct (MONGODB_COLLECTION st); repeat split; reflexivity.
Qed.

Lemma configure_regular_options_witness :
  let s' := (configure plain_format fsync_off reconfigured_pipeline).1.2 in
  Cfg.fsync (config s') = SBool false /\
  Cfg.write_concern (config s') = SInt 0 /\
  Cfg.database (config s') = SStr "crawl" /\
  Cfg.replica_set (config s') = SStr "rs0".
Proof.
  intros s'.
  destruct (configure_regular_options plain_format fsync_off
              reconfigured_pipeline s' [])
    as (Hf & Hw & Hd & Hrs & _); [vm_compute; reflexivity|].
  rewrite Hf, Hw, Hd, Hrs. vm_compute. repeat split; reflexivity.
Defined.

(** X3. When MONGODB_HOST is not set, [configure] succeeds whatever
    MONGODB_PORT holds, and MONGODB_PORT has no effect at all. *)
Theorem configure_port_without_host fa st s port :
  not_set (MONGODB_HOST st) = true ->
  configure fa (with_port port st) s = configure fa st s /\
  exists s', configure fa st s = (Ok tt, s', []).
Proof.
  intros Hhost. rewrite !configure_run.
  cbn [with_port MONGODB_HOST MONGODB_PORT]. rewrite Hhost. cbn [negb andb].
  split; [|eauto].
  unfold resolved, resolved_uri.
  cbn [with_port MONGODB_HOST MONGODB_PORT MONGODB_REPLICA_SET
       MONGODB_REPLICA_SET_HOSTS MONGODB_URI MONGODB_FSYNC
       MONGODB_REPLICA_SET_W MONGODB_DATABASE MONGODB_COLLECTION].
  reflexivity.
Qed.

Lemma configure_port_without_host_witness :
  configure plain_format (with_port (SInt 27018) fsync_off) new_pipeline =
    configure plain_format fsync_off new_pipeline /\
  exists s', configure plain_format fsync_off new_pipeline = (Ok tt, s', []).
Proof.
  apply (configure_port_without_host plain_format fsync_off new_pipeline
           (SInt 27018)).
  reflexivity.
Defined.

(** X4. When MONGODB_REPLICA_SET is not set, MONGODB_REPLICA_SET_HOSTS has
    no effect on [configure]. *)
Theorem configure_hosts_without_replica_set fa st s hosts :
  not_set (MONGODB_REPLICA_SET st) = true ->
  configure fa (with_replica_set_hosts hosts st) s = configure fa st s.
Proof.
  intros Hrs. rewrite !configure_run.
  unfold resolved, resolved_uri.
  cbn [with_replica_set_hosts MONGODB_HOST MONGODB_PORT MONGODB_REPLICA_SET
       MONGODB_REPLICA_SET_HOSTS MONGODB_URI MONGODB_FSYNC
       MONGODB_REPLICA_SET_W MONGODB_DATABASE MONGODB_COLLECTION].
  rewrite Hrs. cbn [negb andb]. reflexivity.
Qed.

Lemma configure_hosts_without_replica_set_witness :
  configure plain_format
    (with_replica_set_hosts (SStr "a.example.org,b.example.org") fsync_off)
    new_pipeline =
  configure plain_format fsync_off new_pipeline.
Proof.
  apply (configure_hosts_without_replica_set plain_format fsync_off
           new_pipeline (SStr "a.example.org,b.example.org")).
  reflexivity.
Defined.

(** ** [open_spider] *)

Lemma kept_or_zero v : kept v = or_zero v.
Proof.
  unfold kept, truthy_int, or_zero. destruct v as [n|]; [|reflexivity].
  cbn [default from_option id]. destruct (Z.eqb_spec n 0); cbn [negb]; congruence.
Qed.

(** X5. After a successful [open_spider], every entry of the configuration
    table is a proper entry, and its type has: the collection named by the
    entry, the buffer threshold of the entry (0 when it is [None]), a count
    of 0, an empty buffer, and the duplicate-stop threshold of the entry
    (0 when it is [None]), which is not negative. *)
Theorem open_spider_sets_up_types fa drv st s p tr itype entry :
  open_spider fa drv st s = (Ok tt, p, tr) ->
  Cfg.collection (config p) !! itype = Some entry ->
  exists c,
    entry = Some c /\
    collection p !! itype = Some (Coll.name c) /\
    buffer_settings p !! itype = Some (or_zero (Coll.buffer c)) /\
    current_item p !! itype = Some 0 /\
    item_buffer p !! itype = Some [] /\
    stop_on_duplicate p !! itype = Some (or_zero (Coll.stop_on_duplicate c)) /\
    0 <= or_zero (Coll.stop_on_duplicate c).
Proof.
  intros Hopen Hentry.
  apply open_spider_fresh in Hopen as [Hstarted Hzero].
  destruct (Hstarted _ _ Hentry) as (c & -> & [Hbs _ _ Hcoll Hstop Hnn]).
  destruct (Hzero _ _ Hentry) as [Hcount Hbuf].
  fold (kept (Coll.buffer c)) in Hbs.
  fold (kept (Coll.stop_on_duplicate c)) in Hstop.
  rewrite kept_or_zero in Hbs, Hstop.
  exists c. repeat split; assumption.
Qed.

Lemma open_spider_sets_up_types_witness :
  exists c,
    Some page_entry = Some c /\
    collection page_pipeline !! "Page" = Some (Coll.name c) /\
    buffer_settings page_pipeline !! "Page" = Some (or_zero (Coll.buffer c)) /\
    current_item page_pipeline !! "Page" = Some 0 /\
    item_buffer page_pipeline !! "Page" = Some [] /\
    stop_on_duplicate page_pipeline !! "Page"
      = Some (or_zero (Coll.stop_on_duplicate c)) /\
    0 <= or_zero (Coll.stop_on_duplicate c).
Proof.
  apply (open_spider_sets_up_types plain_format good_driver page_settings
           new_pipeline page_pipeline
           [EvMongoClient (SStr "mongodb://localhost:27017") (SBool false) PRIMARY]
           "Page" (Some page_entry)).
  - vm_compute. reflexivity.
  - vm_compute. reflexivity.
Defined.

(** X6. When the connection fails, [open_spider] raises the driver's
    exception at once: the only call made is the connection attempt, and
    the state is the one [configure] left, with no type set up. *)
Theorem open_spider_connection_failure fa drv st s s1 e :
  configure fa st s = (Ok tt, s1, []) ->
  connect_answer drv = Some e ->
  open_spider fa drv st s = (Raise e, s1, [connection_event (config s1)]).
Proof.
  intros Hconf Hconn. unfold open_spider. rewrite bind_run, Hconf.
  py_unfold. rewrite Hconn. reflexivity.
Qed.

Lemma open_spider_connection_failure_witness :
  open_spider plain_format down_driver page_settings new_pipeline =
    (Raise ConnectionFailure,
     (configure plain_format page_settings new_pipeline).1.2,
     [connection_event
        (config (configure plain_format page_settings new_pipeline).1.2)]).
Proof.
  apply (open_spider_connection_failure plain_format down_driver page_settings
           new_pipeline).
  - vm_compute. reflexivity.
  - reflexivity.
Defined.

(** The calls of the start-up loop when it ends without exception. *)
Lemma open_spider_loop_calls drv (l : list (string * option Coll.t)) :
  forall s s' tr,
    for_each l (fun kv => open_spider_entry drv kv.1 kv.2) s = (Ok tt, s', tr) ->
    tr = index_events l.
Proof.
  induction l as [|[k entry] l IH]; intros s s' tr Hrun.
  - cbn in Hrun. injection Hrun as _ <-. reflexivity.
  - cbn [for_each fst snd] in Hrun. rewrite bind_run in Hrun.
    destruct entry as [c|].
    2:{ destruct (open_spider_entry_none drv k s) as [msg Hnone].
        rewrite Hnone in Hrun. discriminate. }
    rewrite open_spider_entry_run in Hrun. cbn zeta in Hrun.
    destruct (if truthy_key _ then _ else _); [discriminate|].
    destruct (kept _ <? 0); [discriminate|].
    match type of Hrun with context [for_each l ?b ?st] =>
      specialize (IH st); destruct (for_each l b st) as [[r2 s2] t2] end.
    injection Hrun as -> _ <-. rewrite (IH s2 t2 eq_refl).
    unfold index_events, index_calls. cbn [flat_map snd]. reflexivity.
Qed.

(** X7. The calls of a successful [open_spider] are the connection,
    followed by one [ensure_index(unique_key, unique=True)] for each entry
    whose unique key is set, in the iteration order of the table, and
    nothing else: no write reaches the store at start-up. *)
Theorem open_spider_calls fa drv st s p tr :
  open_spider fa drv st s = (Ok tt, p, tr) ->
  tr = connection_event (config p)
         :: index_events (map_to_list (Cfg.collection (config p))) /\
  store_writes tr = 0%nat.
Proof.
  unfold open_spider. rewrite bind_run.
  pose proof (configure_frame fa st s) as [Htr0 _].
  destruct (configure fa st s) as [[r0 s0] t0]. cbn [fst snd] in Htr0. subst t0.
  destruct r0 as [[]|e]; [|discriminate].
  py_unfold.
  destruct (connect_answer drv); py_unfold; [discriminate|].
  match goal with |- context [for_each ?l ?b ?st] =>
    destruct (for_each l b st) as [[r1 s1] t1] eqn:Hloop end.
  destruct r1 as [[]|e]; [|discriminate].
  intros [= <- <-].
  pose proof (open_spider_loop_ok drv _ (NoDup_fst_map_to_list _) _ _ _ Hloop)
    as (Hcfg & _).
  apply open_spider_loop_calls in Hloop. subst t1.
  state_simpl. rewrite Hcfg. split; [reflexivity|].
  assert (List.filter is_store_write
            (index_events (map_to_list (Cfg.collection (config s0)))) = [])
    as Hnone.
  { generalize (map_to_list (Cfg.collection (config s0))).
    induction l as [|[k [c|]] l IH]; cbn; [reflexivity| |exact IH].
    destruct (truthy_key (Coll.unique_key c)); cbn; exact IH. }
  assert (is_store_write (connection_event (config s0)) = false) as Hconn.
  { unfold connection_event. destruct (Cfg.replica_set (config s0)); reflexivity. }
  unfold store_writes. cbn [List.filter]. rewrite Hconn, Hnone. reflexivity.
Qed.

Lemma open_spider_calls_witness :
  (open_spider plain_format good_driver keyed_settings new_pipeline).2 =
    connection_event (config keyed_pipeline)
      :: index_events (map_to_list (Cfg.collection (config keyed_pipeline))) /\
  store_writes
    (open_spider plain_format good_driver keyed_settings new_pipeline).2 = 0%nat.
Proof.
  apply (open_spider_calls plain_format good_driver keyed_settings
           new_pipeline keyed_pipeline).
  vm_compute. reflexivity.
Defined.

(** The start-up loop does not get past an entry whose index cannot be
    built. *)
Lemma open_spider_loop_index_failure drv (l : list (string * option Coll.t)) :
  (exists k c e, (k, Some c) ∈ l /\ truthy_key (Coll.unique_key c) = true /\
                 ensure_index_answer drv k = Some e) ->
  forall s, exists e s' tr,
    for_each l (fun kv => open_spider_entry drv kv.1 kv.2) s = (Raise e, s', tr).
Proof.
  induction l as [|[k0 entry0] l IH]; intros (k & c & e & Hin & Hkey & He) s.
  - inversion Hin.
  - cbn [for_each fst snd]. rewrite bind_run.
    destruct entry0 as [c0|].
    2:{ destruct (open_spider_entry_none drv k0 s) as [msg ->]. eauto. }
    rewrite open_spider_entry_run. cbn zeta.
    destruct (if truthy_key _ then _ else _) as [e0|] eqn:Hindex; [eauto|].
    destruct (kept (Coll.stop_on_duplicate c0) <? 0); [eauto|].
    apply elem_of_cons in Hin as [[= -> <-]|Hin].
    { rewrite Hkey, He in Hindex. discriminate. }
    match goal with |- context [for_each l ?b ?st] =>
      destruct (IH (ex_intro _ k (ex_intro _ c (ex_intro _ e
                      (conj Hin (conj Hkey He))))) st)
        as (e' & s' & tr & ->) end.
    eauto.
Qed.

(** X8. A failure of [ensure_index] is fatal for start-up: when the index
    of some configured type with a unique key cannot be built,
    [open_spider] ends with an exception. *)
Theorem open_spider_index_failure fa drv st s s1 itype c e :
  configure fa st s = (Ok tt, s1, []) ->
  Cfg.collection (config s1) !! itype = Some (Some c) ->
  truthy_key (Coll.unique_key c) = true ->
  ensure_index_answer drv itype = Some e ->
  exists e' s' tr, open_spider fa drv st s = (Raise e', s', tr).
Proof.
  intros Hconf Hentry Hkey He. unfold open_spider. rewrite bind_run, Hconf.
  py_unfold.
  destruct (connect_answer drv); py_unfold; [eauto|].
  match goal with |- context [for_each ?l ?b ?st] =>
    destruct (open_spider_loop_index_failure drv l
                (ex_intro _ itype (ex_intro _ c (ex_intro _ e
                   (conj (proj2 (elem_of_map_to_list _ _ _) Hentry)
                         (conj Hkey He))))) st)
      as (e' & s' & tr & ->) end.
  eauto.
Qed.

Lemma open_spider_index_failure_witness :
  exists e' s' tr,
    open_spider plain_format no_index_driver keyed_settings new_pipeline
      = (Raise e', s', tr).
Proof.
  apply (open_spider_index_failure plain_format no_index_driver keyed_settings
           new_pipeline
           (configure plain_format keyed_settings new_pipeline).1.2
           "Doc" (Coll.mk "docs" (UKField "id") None false (Some 0))
           OperationFailure).
  - vm_compute. reflexivity.
  - vm_compute. reflexivity.
  - reflexivity.
  - reflexivity.
Defined.

(** X9. After a successful [open_spider] the collection handles, the
    buffer thresholds and the duplicate-stop thresholds exist for the
    configured types and for no other type, whatever an earlier start-up
    had left. *)
Theorem open_spider_configured_types_only fa drv st s p tr itype :
  open_spider fa drv st s = (Ok tt, p, tr) ->
  Cfg.collection (config p) !! itype = None ->
  collection p !! itype = None /\
  buffer_settings p !! itype = None /\
  stop_on_duplicate p !! itype = None.
Proof.
  unfold open_spider. rewrite bind_run.
  destruct (configure fa st s) as [[r0 s0] t0].
  destruct r0 as [[]|e]; [|discriminate].
  py_unfold.
  destruct (connect_answer drv); py_unfold; [discriminate|].
  match goal with |- context [for_each ?l ?b ?st] =>
    destruct (for_each l b st) as [[r1 s1] t1] eqn:Hloop end.
  destruct r1 as [[]|e]; [|discriminate].
  intros [= <- _] Hnone.
  apply open_spider_loop_ok in Hloop as (Hcfg & _ & _ & Hrest);
    [|apply NoDup_fst_map_to_list].
  state_simpl. rewrite Hcfg in Hnone.
  destruct (Hrest itype) as (_ & _ & Hc & Hs & Hb).
  { intros Hin. apply list_elem_of_fmap in Hin as ([k v] & -> & Hin).
    apply elem_of_map_to_list in Hin. cbn in Hnone. congruence. }
  state_simpl. rewrite Hc, Hs, Hb. rewrite !lookup_empty. auto.
Qed.

Lemma open_spider_configured_types_only_witness :
  collection
    (open_spider plain_format good_driver page_settings keyed_pipeline).1.2
    !! "Doc" = None /\
  buffer_settings
    (open_spider plain_format good_driver page_settings keyed_pipeline).1.2
    !! "Doc" = None /\
  stop_on_duplicate
    (open_spider plain_format good_driver page_settings keyed_pipeline).1.2
    !! "Doc" = None.
Proof.
  apply (open_spider_configured_types_only plain_format good_driver
           page_settings keyed_pipeline _
           [EvMongoClient (SStr "mongodb://localhost:27017") (SBool false)
              PRIMARY]).
  - vm_compute. reflexivity.
  - vm_compute. reflexivity.
Defined.

(** ** [process_item] along a run *)

(** On a started pipeline a call of [process_item] leaves the state as it
    was, or with one more record in the buffer of the declared type and,
    after a flush, other duplicate counters. *)
Lemma process_item_shape now answer t item s :
  started s ->
  let s' := (process_item now answer t item s).1.2 in
  s' = s \/
  exists n pending,
    s' = set_duplicate_key_count (duplicate_key_count s')
           (enqueue t n pending s).
Proof.
  intros Hs s'. subst s'.
  destruct (Cfg.collection (config s) !! t) as [entry|] eqn:Hentry.
  2:{ rewrite process_item_unknown_type by assumption. left. reflexivity. }
  destruct (Hs t entry Hentry) as (c & -> & [Hbs [n Hn] [pending Hbuf] _ _ _]).
  destruct (truthy_int (Coll.buffer c)) eqn:Htruthy.
  - destruct (Coll.buffer c) as [b|] eqn:Hb; [|discriminate].
    cbn [default] in Hbs. cbn [truthy_int] in Htruthy.
    assert (b <> 0) as Hnz by (intros ->; discriminate).
    rewrite (process_item_buffered now answer t item s c b n pending)
      by (rewrite ?Hb; assumption).
    right. destruct (reaches _ _).
    + match goal with |- context [insert_item ?a ?b ?c ?d ?e] =>
        pose proof (insert_item_frame a b c d e) as Hframe end.
      eexists _, _. exact Hframe.
    + cbn [fst snd]. eexists _, _. unfold enqueue.
      destruct s; reflexivity.
  - rewrite (process_item_unbuffered now answer t item s c) by assumption.
    rewrite (insert_item_single now answer item t s (Some c)) by assumption.
    left. reflexivity.
Qed.

Lemma submit_all_started subs :
  forall s,
    started s ->
    started (submit_all subs s).2 /\ config (submit_all subs s).2 = config s.
Proof.
  induction subs as [|x subs IH]; intros s Hs; [cbn; auto|].
  cbn [submit_all].
  destruct (process_item_counts (at_time x) (driver_answer x) (type_name x)
              (fields x) s Hs) as (Hs1 & Hcfg & _).
  destruct (process_item _ _ _ _ s) as [[r s1] tr]. cbn [fst snd] in *.
  destruct (IH s1 Hs1) as [Hs2 Hcfg2].
  destruct (submit_all subs s1) as [rs s2]. cbn [fst snd] in *.
  split; [exact Hs2|congruence].
Qed.

(** X10. A type without buffer never stores anything: at any point of a
    run after start-up, [process_item] for such a type raises the
    [NameError] of [insert_item], makes no call to the store and leaves the
    pipeline as it was. *)
Theorem process_item_unbuffered_fails fa drv st s0 p tr0 subs now answer t c item :
  open_spider fa drv st s0 = (Ok tt, p, tr0) ->
  Cfg.collection (config p) !! t = Some (Some c) ->
  truthy_int (Coll.buffer c) = false ->
  let s := (submit_all subs p).2 in
  process_item now answer t item s = (Raise (NameError "collecgtion"), s, []).
Proof.
  intros Hopen Hentry Hbuf s.
  apply open_spider_fresh in Hopen as [Hstarted _].
  destruct (submit_all_started subs p Hstarted) as [Hs Hcfg]. fold s in Hs, Hcfg.
  rewrite <- Hcfg in Hentry.
  destruct (Hs t _ Hentry) as (c' & [= <-] & [Hbs _ _ _ _ _]).
  rewrite Hbuf in Hbs.
  rewrite (process_item_unbuffered now answer t item s c) by assumption.
  apply (insert_item_single now answer item t s (Some c)). assumption.
Qed.

Lemma process_item_unbuffered_fails_witness :
  let s := (submit_all mixed_run mixed_pipeline).2 in
  process_item 20 None "Plain" (record 7) s
    = (Raise (NameError "collecgtion"), s, []).
Proof.
  apply (process_item_unbuffered_fails plain_format good_driver mixed_settings
           new_pipeline mixed_pipeline
           [EvMongoClient (SStr "mongodb://localhost:27017") (SBool false) PRIMARY]
           mixed_run 20 None "Plain" plain_entry (record 7)).
  - vm_compute. reflexivity.
  - vm_compute. reflexivity.
  - reflexivity.
Defined.

(** X18. A run of [process_item] calls on a started pipeline changes
    neither the configuration, nor the collection handles, nor the buffer
    and duplicate-stop thresholds. *)
Theorem submit_all_keeps_settings fa drv st s0 p tr0 subs :
  open_spider fa drv st s0 = (Ok tt, p, tr0) ->
  let s := (submit_all subs p).2 in
  config s = config p /\
  collection s = collection p /\
  buffer_settings s = buffer_settings p /\
  stop_on_duplicate s = stop_on_duplicate p.
Proof.
  intros Hopen. apply open_spider_fresh in Hopen as [Hstarted _].
  clear -Hstarted. revert p Hstarted.
  induction subs as [|x subs IH]; intros p Hstarted; [cbn; auto|].
  cbn [submit_all].
  destruct (process_item_counts (at_time x) (driver_answer x) (type_name x)
              (fields x) p Hstarted) as (Hs1 & _).
  pose proof (process_item_shape (at_time x) (driver_answer x) (type_name x)
                (fields x) p Hstarted) as Hshape.
  destruct (process_item _ _ _ _ p) as [[r s1] tr]. cbn [fst snd] in *.
  specialize (IH s1 Hs1).
  destruct (submit_all subs s1) as [rs s2]. cbn [fst snd] in *.
  destruct IH as (-> & -> & -> & ->).
  destruct Hshape as [-> | (n & pending & ->)]; auto.
Qed.

Lemma submit_all_keeps_settings_witness :
  let s := (submit_all mixed_run mixed_pipeline).2 in
  config s = config mixed_pipeline /\
  collection s = collection mixed_pipeline /\
  buffer_settings s = buffer_settings mixed_pipeline /\
  stop_on_duplicate s = stop_on_duplicate mixed_pipeline.
Proof.
  apply (submit_all_keeps_settings plain_format good_driver mixed_settings
           new_pipeline mixed_pipeline
           [EvMongoClient (SStr "mongodb://localhost:27017") (SBool false) PRIMARY]
           mixed_run).
  vm_compute. reflexivity.
Defined.





Lemma store_writes_app tr1 tr2 :
  store_writes (tr1 ++ tr2) = (store_writes tr1 + store_writes tr2)%nat.
Proof. unfold store_writes. rewrite List.filter_app, length_app. reflexivity. Qed.

Lemma close_spider_calls_app tr1 tr2 :
  close_spider_calls (tr1 ++ tr2) =
    (close_spider_calls tr1 + close_spider_calls tr2)%nat.
Proof.
  unfold close_spider_calls. rewrite List.filter_app, length_app. reflexivity.
Qed.

(** The duplicate-key handler writes nothing to the store and asks for a
    stop at most once. *)
Lemma on_duplicate_key_calls itype s :
  store_writes (on_duplicate_key itype s).2 = 0%nat /\
  (close_spider_calls (on_duplicate_key itype s).2 <= 1)%nat.
Proof.
  unfold on_duplicate_key. py_run; cbn; lia.
Qed.

(** The store writes of one call for a buffered type without unique key:
    one when the count reaches the threshold, none otherwise. *)
Lemma process_item_writes now answer t item s c N n :
  started s ->
  Cfg.collection (config s) !! t = Some (Some c) ->
  Coll.buffer c = Some N -> N <> 0 ->
  Coll.unique_key c = UKNone ->
  current_item s !! t = Some n ->
  store_writes (process_item now answer t item s).2 =
    if n + 1 =? N then 1%nat else 0%nat.
Proof.
  intros Hs Hentry Hb HN Hkey Hn.
  destruct (Hs t _ Hentry) as (c' & [= <-] & [Hbs _ [pending Hbuf] Hcoll _ _]).
  rewrite Hb in Hbs. cbn [truthy_int default from_option id] in Hbs.
  destruct (Z.eqb_spec N 0) as [?|_]; [contradiction|]. cbn [negb] in Hbs.
  rewrite (process_item_buffered now answer t item s c N n pending)
    by assumption.
  rewrite Hb. cbn [reaches]. destruct (n + 1 =? N); [|reflexivity].
  rewrite (insert_item_batch now answer _ t _ c (Coll.name c))
    by (unfold enqueue; state_simpl; assumption).
  destruct answer as [e|]; [|reflexivity].
  destruct e; try reflexivity.
  match goal with |- context [on_duplicate_key t ?st] =>
    pose proof (on_duplicate_key_calls t st) as [Hw _];
    destruct (on_duplicate_key t st) as [[[[]|e] s'] tr] end;
    cbn [fst snd] in *; unfold store_writes in *;
    cbn [List.filter is_store_write length]; rewrite Hw; reflexivity.
Qed.

Lemma submit_all_writes t c N subs :
  forall s n,
    started s ->
    Cfg.collection (config s) !! t = Some (Some c) ->
    Coll.buffer c = Some N -> 0 < N ->
    Coll.unique_key c = UKNone ->
    current_item s !! t = Some n -> 0 <= n < N ->
    Forall (fun x => type_name x = t) subs ->
    Z.of_nat (store_writes (run_calls (submit_all subs s).1)) =
      (n + Z.of_nat (length subs)) / N.
Proof.
  induction subs as [|x subs IH];
    intros s n Hs Hentry Hb HN Hkey Hn Hrange Hall.
  - cbn. rewrite Z.add_0_r, Z.div_small by lia. reflexivity.
  - apply Forall_cons in Hall as [Hx Hall]. cbn [submit_all]. rewrite Hx.
    pose proof (process_item_writes (at_time x) (driver_answer x) t (fields x)
                  s c N n Hs Hentry Hb ltac:(lia) Hkey Hn) as Hw.
    destruct (process_item_counts (at_time x) (driver_answer x) t
                (fields x) s Hs) as (Hs1 & Hcfg & Hcount).
    destruct (process_item _ _ _ _ s) as [[r s1] tr]. cbn [fst snd] in *.
    unfold counted in Hcount. rewrite Hentry, Hn, Hb in Hcount.
    cbn [truthy_int reaches] in Hcount.
    destruct (Z.eqb_spec N 0) as [?|_]; [lia|]. cbn [negb] in Hcount.
    rewrite <- Hcfg in Hentry.
    specialize (IH s1 (if n + 1 =? N then 0 else n + 1) Hs1 Hentry Hb HN Hkey).
    destruct (submit_all subs s1) as [rs s2]. cbn [fst snd] in *.
    unfold run_calls in *. cbn [List.map concat snd].
    rewrite store_writes_app, Nat2Z.inj_add, Hw.
    rewrite IH; [|rewrite Hcount; apply lookup_insert_eq| |exact Hall].
    + cbn [length]. rewrite Nat2Z.inj_succ.
      destruct (Z.eqb_spec (n + 1) N) as [Heq|Hne].
      * replace (n + Z.succ (Z.of_nat (length subs)))
          with (1 * N + Z.of_nat (length subs)) by lia.
        rewrite Z.div_add_l by lia. reflexivity.
      * change (Z.of_nat 0) with 0. rewrite Z.add_0_l. f_equal. lia.
    + destruct (Z.eqb_spec (n + 1) N); lia.
Qed.

(** X12. For a buffered type without unique key, a run of k submissions
    of that type right after start-up sends exactly k div N writes to the
    store, N being the buffer threshold: one [insert] per full group of N
    submissions, whatever the driver answers. *)
Theorem store_writes_of_run fa drv st s0 p tr0 subs itype c N :
  open_spider fa drv st s0 = (Ok tt, p, tr0) ->
  Cfg.collection (config p) !! itype = Some (Some c) ->
  Coll.buffer c = Some N -> 0 < N ->
  Coll.unique_key c = UKNone ->
  Forall (fun x => type_name x = itype) subs ->
  Z.of_nat (store_writes (run_calls (submit_all subs p).1)) =
    Z.of_nat (length subs) / N.
Proof.
  intros Hopen Hentry Hb HN Hkey Hall.
  apply open_spider_fresh in Hopen as [Hstarted Hzero].
  destruct (Hzero _ _ Hentry) as [Hcount _].
  rewrite (submit_all_writes itype c N subs p 0) by (assumption || lia).
  reflexivity.
Qed.

Lemma store_writes_of_run_witness :
  Z.of_nat (store_writes
              (run_calls (submit_all [page 1; page 2; page 3; page 4; page 5]
                                     page_pipeline).1)) =
    Z.of_nat (length [page 1; page 2; page 3; page 4; page 5]) / 2.
Proof.
  apply (store_writes_of_run plain_format good_driver page_settings
           new_pipeline page_pipeline
           [EvMongoClient (SStr "mongodb://localhost:27017") (SBool false) PRIMARY]
           [page 1; page 2; page 3; page 4; page 5] "Page" page_entry 2).
  - vm_compute. reflexivity.
  - vm_compute. reflexivity.
  - reflexivity.
  - lia.
  - reflexivity.
  - repeat constructor.
Defined.

(** ** [insert_item] *)

(** The ways a call of [insert_item] can go: it fails before the store is
    reached; or it is given a batch and sends one [insert], followed by the
    duplicate-key handler when the driver answers so; or it is given a
    batch and sends one [update]. *)
Lemma insert_item_cases now answer item itype s :
  (exists e, insert_item now answer item itype s = (Raise e, s, [])) \/
  (exists h b, item = Batch b /\
     insert_item now answer item itype s =
       match answer with
       | None => (Ok item, s, [EvInsert h item])
       | Some DuplicateKeyError =>
           match on_duplicate_key itype s with
           | (Ok _, s', tr) => (Ok item, s', EvInsert h item :: tr)
           | (Raise e, s', tr) => (Raise e, s', EvInsert h item :: tr)
           end
       | Some e => (Raise e, s, [EvInsert h item])
       end) \/
  (exists h key b, item = Batch b /\
     insert_item now answer item itype s =
       (match answer with None => Ok item | Some e => Raise e end,
        s, [EvUpdate h key item])).
Proof.
  destruct (Cfg.collection (config s) !! itype) as [entry|] eqn:Hentry.
  2:{ left. unfold insert_item. py_unfold. rewrite Hentry. eauto. }
  destruct item as [d|b].
  { left. rewrite (insert_item_single _ _ _ _ _ _ Hentry). eauto. }
  destruct entry as [c|].
  2:{ left. unfold insert_item. py_unfold. rewrite Hentry. eauto. }
  destruct (collection s !! itype) as [h|] eqn:Hh.
  - destruct (Coll.unique_key c) as [|f|keys] eqn:Hkey.
    + right. left. exists h, b. split; [reflexivity|].
      apply (insert_item_batch _ _ _ _ _ c); assumption.
    + left. unfold insert_item. py_unfold. rewrite Hentry. py_unfold.
      rewrite Hkey. cbn [key_filter]. py_unfold. eauto.
    + unfold insert_item. py_unfold. rewrite Hentry. py_unfold. rewrite Hkey.
      destruct (dict_keys keys) as [|k ks]; cbn [key_filter]; py_unfold;
        [|left; eauto].
      rewrite Hh. right. right. exists h, [], b. split; [reflexivity|].
      destruct answer; reflexivity.
  - left. unfold insert_item. py_unfold. rewrite Hentry. py_unfold.
    destruct (Coll.unique_key c) as [|f|keys].
    + rewrite Hh. eauto.
    + cbn [key_filter]. py_unfold. eauto.
    + destruct (dict_keys keys) as [|k ks]; cbn [key_filter]; py_unfold;
        [rewrite Hh|]; eauto.
Qed.

(** X13. [insert_item] returns normally only when it is given a batch, and
    what it returns then is the batch it was given. *)
Theorem insert_item_returns_argument now answer item itype s r s' tr :
  insert_item now answer item itype s = (Ok r, s', tr) ->
  r = item /\ exists b, item = Batch b.
Proof.
  destruct (insert_item_cases now answer item itype s)
    as [[e ->] | [(h & b & -> & ->) | (h & key & b & -> & ->)]].
  - discriminate.
  - destruct answer as [e|].
    + destruct e; try discriminate.
      destruct (on_duplicate_key itype s) as [[[[]|e] s1] t1];
        [|discriminate].
      intros [= <- _ _]. eauto.
    + intros [= <- _ _]. eauto.
  - destruct answer; [discriminate|]. intros [= <- _]. eauto.
Qed.

Lemma insert_item_returns_argument_witness :
  Batch [record 1; record 2] = Batch [record 1; record 2] /\
  exists b, Batch [record 1; record 2] = Batch b.
Proof.
  apply (insert_item_returns_argument 0 (Some DuplicateKeyError)
           (Batch [record 1; record 2]) "Page" page_pipeline
           (Batch [record 1; record 2]) page_pipeline
           [EvInsert "pages" (Batch [record 1; record 2])]).
  vm_compute. reflexivity.
Defined.

(** X14. An exception of the driver other than [DuplicateKeyError] is not
    handled by [insert_item]: it goes to the caller, after the one [insert]
    that raised it, and the pipeline is left as it was. *)
Theorem insert_item_driver_error now b itype s c h e :
  Cfg.collection (config s) !! itype = Some (Some c) ->
  Coll.unique_key c = UKNone ->
  collection s !! itype = Some h ->
  catches_DuplicateKeyError e = false ->
  insert_item now (Some e) (Batch b) itype s =
    (Raise e, s, [EvInsert h (Batch b)]).
Proof.
  intros Hentry Hkey Hh He.
  rewrite (insert_item_batch now _ b itype s c h Hentry Hkey Hh).
  destruct e; try reflexivity. discriminate.
Qed.

Lemma insert_item_driver_error_witness :
  insert_item 0 (Some ConnectionFailure) (Batch [record 1]) "Page" page_pipeline =
    (Raise ConnectionFailure, page_pipeline, [EvInsert "pages" (Batch [record 1])]).
Proof.
  apply (insert_item_driver_error 0 [record 1] "Page" page_pipeline page_entry).
  - vm_compute. reflexivity.
  - reflexivity.
  - vm_compute. reflexivity.
  - reflexivity.
Defined.

(** X15. One call of [insert_item] sends at most one write to the store
    and asks the engine to stop at most once; it asks only after an
    [insert] that the driver answered with [DuplicateKeyError]. *)
Theorem insert_item_at_most_one_call now answer item itype s :
  (store_writes (insert_item now answer item itype s).2 <= 1)%nat /\
  (close_spider_calls (insert_item now answer item itype s).2 <= 1)%nat /\
  (close_spider_calls (insert_item now answer item itype s).2 <> 0%nat ->
   answer = Some DuplicateKeyError /\
   store_inserts (insert_item now answer item itype s).2 = 1%nat).
Proof.
  assert (forall (r : res payload) (s' : Pipeline) (tr : list event),
             store_writes tr = 1%nat \/ store_writes tr = 0%nat ->
             close_spider_calls tr = 0%nat ->
             (store_writes (r, s', tr).2 <= 1)%nat /\
             (close_spider_calls (r, s', tr).2 <= 1)%nat /\
             (close_spider_calls (r, s', tr).2 <> 0%nat ->
              answer = Some DuplicateKeyError /\
              store_inserts (r, s', tr).2 = 1%nat)) as Hquiet.
  { intros r s' tr Hw Hc. cbn [snd]. rewrite Hc.
    split; [lia|]. split; [lia|]. intros Hne. contradiction Hne. reflexivity. }
  destruct (insert_item_cases now answer item itype s)
    as [[e ->] | [(h & b & -> & ->) | (h & key & b & -> & ->)]].
  - apply Hquiet; [right|]; reflexivity.
  - destruct answer as [e|]; [|apply Hquiet; [left|]; reflexivity].
    destruct e; try (apply Hquiet; [left|]; reflexivity).
    pose proof (on_duplicate_key_calls itype s) as [Hw Hc].
    assert (store_inserts (on_duplicate_key itype s).2 = 0%nat) as Hi.
    { unfold on_duplicate_key. py_run; reflexivity. }
    destruct (on_duplicate_key itype s) as [[[[]|e] s1] t1];
      cbn [fst snd] in *;
      unfold store_writes, close_spider_calls, store_inserts in *;
      cbn [List.filter is_store_write is_close_spider is_insert length];
      rewrite Hw, Hi; repeat split; auto; lia.
  - apply Hquiet; [left|]; reflexivity.
Qed.

(** ** The duplicate counters of a new pipeline *)

Lemma on_duplicate_key_no_counter itype s :
  duplicate_key_count s !! itype = None ->
  (on_duplicate_key itype s).1.2 = s /\ (on_duplicate_key itype s).2 = [].
Proof.
  intros Hnone. unfold on_duplicate_key. py_run; split; reflexivity.
Qed.

Lemma insert_item_no_counter now answer item itype s :
  duplicate_key_count s !! itype = None ->
  (insert_item now answer item itype s).1.2 = s /\
  close_spider_calls (insert_item now answer item itype s).2 = 0%nat.
Proof.
  intros Hnone.
  destruct (insert_item_cases now answer item itype s)
    as [[e ->] | [(h & b & -> & ->) | (h & key & b & -> & ->)]].
  - split; reflexivity.
  - destruct answer as [e|]; [|split; reflexivity].
    destruct e; try (split; reflexivity).
    destruct (on_duplicate_key_no_counter itype s Hnone) as [Hs Htr].
    destruct (on_duplicate_key itype s) as [[[[]|e] s1] t1];
      cbn [fst snd] in *; subst; split; reflexivity.
  - split; reflexivity.
Qed.

Lemma process_item_no_counter now answer t item s :
  started s ->
  duplicate_key_count s = ∅ ->
  close_spider_calls (process_item now answer t item s).2 = 0%nat /\
  duplicate_key_count (process_item now answer t item s).1.2 = ∅.
Proof.
  intros Hs Hdup.
  destruct (Cfg.collection (config s) !! t) as [entry|] eqn:Hentry.
  2:{ rewrite process_item_unknown_type by assumption. auto. }
  destruct (Hs t entry Hentry) as (c & -> & [Hbs [n Hn] [pending Hbuf] _ _ _]).
  destruct (truthy_int (Coll.buffer c)) eqn:Htruthy.
  - destruct (Coll.buffer c) as [b|] eqn:Hb; [|discriminate].
    cbn [default] in Hbs. cbn [truthy_int] in Htruthy.
    assert (b <> 0) as Hnz by (intros ->; discriminate).
    rewrite (process_item_buffered now answer t item s c b n pending)
      by (rewrite ?Hb; assumption).
    destruct (reaches _ _); [|auto].
    match goal with |- context [insert_item ?a ?b ?c ?d ?e] =>
      destruct (insert_item_no_counter a b c d e) as [Hsame Hcalls] end.
    { unfold enqueue. state_simpl. rewrite Hdup. apply lookup_empty. }
    rewrite Hsame. split; [exact Hcalls|exact Hdup].
  - rewrite (process_item_unbuffered now answer t item s c) by assumption.
    rewrite (insert_item_single now answer item t s (Some c)) by assumption.
    auto.
Qed.

(** X16. The duplicate counters are never given a start value, so the
    stop on duplicates cannot happen: in any run that follows the start-up
    of a pipeline whose counters are empty, as they are when the class is
    created, no call asks the engine to stop, whatever the thresholds and
    whatever the driver answers, and the counters stay empty. *)
Theorem close_spider_never_requested fa drv st s0 p tr0 subs :
  open_spider fa drv st s0 = (Ok tt, p, tr0) ->
  duplicate_key_count s0 = ∅ ->
  close_spider_calls (run_calls (submit_all subs p).1) = 0%nat /\
  duplicate_key_count (submit_all subs p).2 = ∅.
Proof.
  intros Hopen Hempty.
  pose proof (open_spider_duplicate_key_count _ _ _ _ _ _ Hopen) as Hdup.
  rewrite Hempty in Hdup.
  apply open_spider_fresh in Hopen as [Hstarted _].
  clear -Hstarted Hdup. revert p Hstarted Hdup.
  induction subs as [|x subs IH]; intros p Hstarted Hdup; [cbn; auto|].
  cbn [submit_all].
  destruct (process_item_counts (at_time x) (driver_answer x) (type_name x)
              (fields x) p Hstarted) as (Hs1 & _).
  destruct (process_item_no_counter (at_time x) (driver_answer x) (type_name x)
              (fields x) p Hstarted Hdup) as [Hcalls Hdup1].
  destruct (process_item _ _ _ _ p) as [[r s1] tr]. cbn [fst snd] in *.
  specialize (IH s1 Hs1 Hdup1).
  destruct (submit_all subs s1) as [rs s2]. cbn [fst snd] in *.
  destruct IH as [IHc IHd]. split; [|exact IHd].
  unfold run_calls in *. cbn [List.map concat snd].
  rewrite close_spider_calls_app, Hcalls, IHc. reflexivity.
Qed.

Lemma close_spider_never_requested_witness :
  close_spider_calls
    (run_calls
       (submit_all [mkSubmission 0 (Some DuplicateKeyError) "Page" (record 1);
                    mkSubmission 1 (Some DuplicateKeyError) "Page" (record 2)]
                   strict_pipeline).1) = 0%nat /\
  duplicate_key_count
    (submit_all [mkSubmission 0 (Some DuplicateKeyError) "Page" (record 1);
                 mkSubmission 1 (Some DuplicateKeyError) "Page" (record 2)]
                strict_pipeline).2 = ∅.
Proof.
  apply (close_spider_never_requested plain_format good_driver strict_settings
           new_pipeline strict_pipeline
           [EvMongoClient (SStr "mongodb://localhost:27017") (SBool false) PRIMARY]).
  - vm_compute. reflexivity.
  - reflexivity.
Defined.

(** ** The ingestion timestamp *)



Lemma dict_set_set {V} k (v w : V) d :
  dict_set k w (dict_set k v d) = dict_set k w d.
Proof.
  induction d as [|[k' v'] d IH]; cbn [dict_set].
  - rewrite String.eqb_refl. reflexivity.
  - destruct (String.eqb k k') eqn:Hk; cbn [dict_set].
    + rewrite String.eqb_refl. reflexivity.
    + rewrite Hk, IH. reflexivity.
Qed.

(** ** The results of a run *)





(** ** The fallback to the default entry *)


(** ** The stop on duplicates (C2) *)

Lemma submit_all_counters_empty subs :
  forall s,
    started s ->
    duplicate_key_count s = ∅ ->
    duplicate_key_count (submit_all subs s).2 = ∅.
Proof.
  induction subs as [|x subs IH]; intros s Hs Hdup; [exact Hdup|].
  cbn [submit_all].
  destruct (process_item_counts (at_time x) (driver_answer x) (type_name x)
              (fields x) s Hs) as (Hs1 & _).
  destruct (process_item_no_counter (at_time x) (driver_answer x) (type_name x)
              (fields x) s Hs Hdup) as [_ Hdup1].
  destruct (process_item _ _ _ _ s) as [[r s1] tr]. cbn [fst snd] in *.
  specialize (IH s1 Hs1 Hdup1).
  destruct (submit_all subs s1) as [rs s2]. exact IH.
Qed.

(** C2. For a type with duplicate-stop threshold T > 0 and no unique key,
    on a pipeline started with the duplicate counters as the class creates
    them (empty): at any point of a run, a batch whose [insert] meets a
    duplicate key does not reach the comparison with the threshold.  The
    counter of the type has no entry, so [insert_item] raises [KeyError]
    where it is incremented; the engine is not asked to stop, at the T-th
    violation or at any other, and the pipeline is left as it was. *)
Theorem C2_violation_raises_KeyError fa drv st s0 p tr0 subs itype c T now b :
  open_spider fa drv st s0 = (Ok tt, p, tr0) ->
  duplicate_key_count s0 = ∅ ->
  Cfg.collection (config p) !! itype = Some (Some c) ->
  Coll.unique_key c = UKNone ->
  Coll.stop_on_duplicate c = Some T ->
  0 < T ->
  let s := (submit_all subs p).2 in
  insert_item now (Some DuplicateKeyError) (Batch b) itype s =
    (Raise (KeyError itype), s, [EvInsert (Coll.name c) (Batch b)]).
Proof.
  intros Hopen Hempty Hentry Hkey HT Hpos s.
  pose proof (open_spider_duplicate_key_count _ _ _ _ _ _ Hopen) as Hdup.
  rewrite Hempty in Hdup.
  apply open_spider_fresh in Hopen as [Hstarted _].
  destruct (submit_all_started subs p Hstarted) as [Hs Hcfg].
  pose proof (submit_all_counters_empty subs p Hstarted Hdup) as Hnone.
  fold s in Hs, Hcfg, Hnone. rewrite <- Hcfg in Hentry.
  destruct (Hs itype _ Hentry) as (c' & [= <-] & [_ _ _ Hcoll Hstop _]).
  rewrite HT in Hstop. cbn [truthy_int default from_option id] in Hstop.
  destruct (Z.eqb_spec T 0) as [?|_]; [lia|]. cbn [negb] in Hstop.
  rewrite (insert_item_batch now _ b itype s c (Coll.name c) Hentry Hkey Hcoll).
  rewrite (on_duplicate_key_uncounted itype s T Hstop Hpos)
    by (rewrite Hnone; apply lookup_empty).
  reflexivity.
Qed.

Lemma C2_violation_raises_KeyError_witness :
  let s := (submit_all strict_run strict_pipeline).2 in
  insert_item 2 (Some DuplicateKeyError)
              (Batch [record 1; record 2; record 3]) "Page" s =
    (Raise (KeyError "Page"), s,
     [EvInsert "pages" (Batch [record 1; record 2; record 3])]).
Proof.
  apply (C2_violation_raises_KeyError plain_format good_driver strict_settings
           new_pipeline strict_pipeline
           [EvMongoClient (SStr "mongodb://localhost:27017") (SBool false) PRIMARY]
           strict_run "Page" strict_entry 1 2
           [record 1; record 2; record 3]).
  - vm_compute. reflexivity.
  - reflexivity.
  - vm_compute. reflexivity.
  - reflexivity.
  - reflexivity.
  - lia.
Defined.

(** The same through [process_item], with threshold 1: both violations
    end in [KeyError] after their [insert], and no stop is asked for. *)
Example violations_through_process_item :
  (submit_all strict_run strict_pipeline).1 =
    [ (Raise (KeyError "Page"), [EvInsert "pages" (Batch [record 1])]);
      (Raise (KeyError "Page"),
       [EvInsert "pages" (Batch [record 1; record 2])]) ].
Proof. vm_compute. reflexivity. Qed.

(** ** Timestamps in a flushed batch *)



